(** * chatservice: the streamed chat-completion use case

    A shallow embedding of
    [internal/usecase/chatcomplitionstream/completion.go] and the
    properties of [Execute] and [createNewChat].

    [Execute] is a straight line of calls with early error returns.  It is
    embedded in a small error-and-trace monad: a run yields an outcome
    (a value, a Go [error], or a run-time panic) together with the ordered
    list of calls that left the function: gateway calls, provider calls,
    conversation appends and sends on the output channel. *)

From Stdlib Require Import String List ZArith Bool Lia.
From Stdlib Require Import Floats.SpecFloat.
Import ListNotations.

Local Open Scope string_scope.
Local Open Scope list_scope.

(** Go's string [+]. *)
Notation "a +++ b" := (String.append a b) (at level 60, right associativity).

(** ** Go values *)

(** A [float32] is carried as an IEEE-754 datum; the use case only copies
    such values from one struct to another. *)
Definition float32 : Type := spec_float.

(** A Go [error] value is [nil] or carries the text of [err.Error()]. *)
Definition error : Type := option string.

(** A Go pair [(value, err)] of which exactly one side is meaningful. *)
Inductive result (A : Type) : Type :=
| Ok (a : A)
| Error (err : string).
Arguments Ok {A} a.
Arguments Error {A} err.

(** ** The domain entities
    Package [entity] is imported by the use case; its declarations are not
    part of this file's sources. *)

Module Model.
(** Modelled from the spec: the [entity.Model] struct, with the model
    name read at [chat.Config.Model.Name] and the maximum context size
    given to [entity.NewModel]. *)
Record t : Type := mk { Name : string; MaxTokens : Z }.
End Model.

Module ChatConfig.
(** Modelled from the spec: the [entity.ChatConfig] struct, with the
    fields of the literal built in [createNewChat]. *)
Record t : Type := mk {
  Temperature : float32;
  TopP : float32;
  N : Z;
  Stop : list string;
  MaxTokens : Z;
  PresencePenalty : float32;
  FrequencyePenalty : float32;
  Model : Model.t
}.
End ChatConfig.

Module Message.
(** Modelled from the spec: the [entity.Message] struct: a role, a
    textual content and the model it was validated under. *)
Record t : Type := mk { Role : string; Content : string; Model : Model.t }.
End Message.

Module Chat.
(** Modelled from the spec: the [entity.Chat] struct: an opaque
    identifier, the owning user, the ordered messages and the
    configuration. *)
Record t : Type := mk {
  ID : string;
  UserID : string;
  Messages : list Message.t;
  Config : ChatConfig.t
}.
End Chat.

(** Modelled from the spec: the four operations of package [entity] that the
    use case calls, with the signatures of their call sites.
    [AddMessage] has a pointer receiver and mutates the conversation; here
    it returns the conversation as it stands after the call. *)
Record Entity : Type := {
  NewModel : string -> Z -> Model.t;
  NewMessage : string -> string -> Model.t -> result Message.t;
  NewChat : string -> Message.t -> ChatConfig.t -> result Chat.t;
  AddMessage : Chat.t -> Message.t -> result Chat.t
}.

(** Modelled from the spec: what the spec's data model says of these
    operations.  A message keeps the role and the text it was built from;
    a new conversation belongs to the given user, holds the initial message
    only and owns the given configuration; appending adds the message at the
    end and leaves identifier, user and configuration alone. *)
Record EntityLaws (E : Entity) : Prop := {
  NewMessage_fields :
    forall role content model m,
      NewMessage E role content model = Ok m ->
      Message.Role m = role /\ Message.Content m = content;
  NewChat_fields :
    forall userID m cfg c,
      NewChat E userID m cfg = Ok c ->
      Chat.UserID c = userID /\ Chat.Messages c = [m] /\ Chat.Config c = cfg;
  AddMessage_appends :
    forall c m c',
      AddMessage E c m = Ok c' ->
      Chat.ID c' = Chat.ID c /\ Chat.UserID c' = Chat.UserID c /\
      Chat.Config c' = Chat.Config c /\
      Chat.Messages c' = Chat.Messages c ++ [m]
}.

(** ** The provider's types (package [openai]) *)

Module ChatCompletionMessage.
Record t : Type := mk { Role : string; Content : string }.
End ChatCompletionMessage.

Module ChatCompletionRequest.
Record t : Type := mk {
  Model : string;
  Messages : list ChatCompletionMessage.t;
  MaxTokens : Z;
  Temperature : float32;
  TopP : float32;
  Stop : list string;
  PresencePenalty : float32;
  FrequencyPenalty : float32;
  Stream : bool
}.
End ChatCompletionRequest.

Module ChatCompletionStreamChoiceDelta.
Record t : Type := mk { Content : string }.
End ChatCompletionStreamChoiceDelta.

Module ChatCompletionStreamChoice.
Record t : Type := mk { Delta : ChatCompletionStreamChoiceDelta.t }.
End ChatCompletionStreamChoice.

Module ChatCompletionStreamResponse.
Record t : Type := mk { Choices : list ChatCompletionStreamChoice.t }.
End ChatCompletionStreamResponse.

(** How a stream stops yielding fragments: [EOF] stands for any error [err]
    with [errors.Is(err, io.EOF)], [RecvError] for every other error. *)
Inductive RecvEnd : Type :=
| EOF
| RecvError (err : string).

(** A [*openai.ChatCompletionStream] as the use case sees it: the
    fragments that successive [Recv] calls return with a [nil] error,
    then the error of the call after the last fragment. *)
Module ChatCompletionStream.
Record t : Type := mk {
  fragments : list ChatCompletionStreamResponse.t;
  ending : RecvEnd
}.
End ChatCompletionStream.

(** ** The use case's own types *)

Module ChatCompletionConfigInputDTO.
Record t : Type := mk {
  Model : string;
  ModelMaxToken : Z;
  Temperature : float32;
  TopP : float32;
  N : Z;
  Stop : list string;
  MaxTokens : Z;
  PresencePenalty : float32;
  FrequencyePenalty : float32;
  InitialSystemMessage : string
}.
End ChatCompletionConfigInputDTO.

Module ChatCompletionInputDTO.
Record t : Type := mk {
  ChatID : string;
  UserID : string;
  UserMessage : string;
  Config : ChatCompletionConfigInputDTO.t
}.
End ChatCompletionInputDTO.

Module ChatCompletionOutputDTO.
Record t : Type := mk {
  ChatID : string;
  UserID : string;
  Content : string
}.
End ChatCompletionOutputDTO.

(** The collaborators held by [ChatCompletionUseCase]: the
    [gateway.ChatGateway] interface and the provider client.  Each method
    is called at most once in a run, so a method is the answer it gives to
    its argument.  The [Stream] channel is the [EvSend] events of the
    trace: a send is taken to complete, its reader being the caller's
    concern. *)
Record ChatCompletionUseCase : Type := {
  FindChatByID : string -> result Chat.t;
  CreateChat : Chat.t -> error;
  SaveChat : Chat.t -> error;
  CreateChatCompletionStream :
    ChatCompletionRequest.t -> result ChatCompletionStream.t
}.

(** ** Runs *)

(** The calls that leave [Execute], in the order they are made. *)
Inductive Event : Type :=
| EvFindChatByID (id : string)
| EvCreateChat (chat : Chat.t)
| EvAddMessage (msg : Message.t)
| EvCreateChatCompletionStream (req : ChatCompletionRequest.t)
| EvRecv (response : ChatCompletionStreamResponse.t)
| EvRecvEnd (e : RecvEnd)
| EvSend (r : ChatCompletionOutputDTO.t)
| EvSaveChat (chat : Chat.t).

(** How a run ends: [return v, nil], [return nil, err], or a panic. *)
Inductive Outcome (A : Type) : Type :=
| Return (a : A)
| Fail (err : string)
| Panic (msg : string).
Arguments Return {A} a.
Arguments Fail {A} err.
Arguments Panic {A} msg.

Definition Run (A : Type) : Type := (Outcome A * list Event)%type.

Definition ret {A} (a : A) : Run A := (Return a, []).

Definition fail {A} (err : string) : Run A := (Fail err, []).

Definition panic {A} (msg : string) : Run A := (Panic msg, []).

Definition emit (e : Event) : Run unit := (Return tt, [e]).

Definition bind {A B} (m : Run A) (k : A -> Run B) : Run B :=
  match m with
  | (Return a, t) => let (o, t') := k a in (o, t ++ t')
  | (Fail err, t) => (Fail err, t)
  | (Panic msg, t) => (Panic msg, t)
  end.

Notation "x <- m ;; k" := (bind m (fun x => k))
  (at level 61, m at next level, right associativity).
Notation "m ;;; k" := (bind m (fun _ => k))
  (at level 61, right associativity).

(** ** The use case *)

Section UseCase.

Variable E : Entity.
Variable uc : ChatCompletionUseCase.

(** [createNewChat] (lines 147-168). *)
Definition createNewChat (input : ChatCompletionInputDTO.t) : result Chat.t :=
  let cfg := ChatCompletionInputDTO.Config input in
  let model :=
    NewModel E (ChatCompletionConfigInputDTO.Model cfg)
               (ChatCompletionConfigInputDTO.ModelMaxToken cfg) in
  let chatConfig :=
    {| ChatConfig.Temperature := ChatCompletionConfigInputDTO.Temperature cfg;
       ChatConfig.TopP := ChatCompletionConfigInputDTO.TopP cfg;
       ChatConfig.N := ChatCompletionConfigInputDTO.N cfg;
       ChatConfig.Stop := ChatCompletionConfigInputDTO.Stop cfg;
       ChatConfig.MaxTokens := ChatCompletionConfigInputDTO.MaxTokens cfg;
       ChatConfig.PresencePenalty :=
         ChatCompletionConfigInputDTO.PresencePenalty cfg;
       ChatConfig.FrequencyePenalty :=
         ChatCompletionConfigInputDTO.FrequencyePenalty cfg;
       ChatConfig.Model := model |} in
  match NewMessage E "system"
          (ChatCompletionConfigInputDTO.InitialSystemMessage cfg) model with
  | Error err => Error ("error creating initial message: " +++ err)
  | Ok initialMessage =>
      match NewChat E (ChatCompletionInputDTO.UserID input)
              initialMessage chatConfig with
      | Error err => Error ("error creating new chat: " +++ err)
      | Ok chat => Ok chat
      end
  end.

(** Lines 55-71 of [Execute]: the conversation is looked up and, when the
    gateway answers "chat not found", built and handed to [CreateChat]. *)
Definition resolveChat (input : ChatCompletionInputDTO.t) : Run Chat.t :=
  emit (EvFindChatByID (ChatCompletionInputDTO.ChatID input)) ;;;
  match FindChatByID uc (ChatCompletionInputDTO.ChatID input) with
  | Ok chat => ret chat
  | Error err =>
      if String.eqb err "chat not found" then
        match createNewChat input with
        | Error err => fail ("error creating new chat: " +++ err)
        | Ok chat =>
            emit (EvCreateChat chat) ;;;
            match CreateChat uc chat with
            | Some err => fail ("error persisting new chat: " +++ err)
            | None => ret chat
            end
        end
      else fail ("error fetching existing chat: " +++ err)
  end.

(** Lines 72-79: the user's turn is built and appended. *)
Definition appendUserMessage (input : ChatCompletionInputDTO.t)
    (chat : Chat.t) : Run Chat.t :=
  match NewMessage E "user" (ChatCompletionInputDTO.UserMessage input)
          (ChatConfig.Model (Chat.Config chat)) with
  | Error err => fail ("error creating user message: " +++ err)
  | Ok userMessage =>
      emit (EvAddMessage userMessage) ;;;
      match AddMessage E chat userMessage with
      | Error err => fail ("error adding new message: " +++ err)
      | Ok chat => ret chat
      end
  end.

(** Lines 81-87: the [for ... range chat.Messages] loop that appends one
    provider message per conversation message. *)
Definition providerMessages (chat : Chat.t) : list ChatCompletionMessage.t :=
  fold_left
    (fun messages msg =>
       messages ++ [ {| ChatCompletionMessage.Role := Message.Role msg;
                        ChatCompletionMessage.Content := Message.Content msg |} ])
    (Chat.Messages chat) [].

(** Lines 91-101: the request literal. *)
Definition completionRequest (chat : Chat.t) : ChatCompletionRequest.t :=
  {| ChatCompletionRequest.Model := Model.Name (ChatConfig.Model (Chat.Config chat));
     ChatCompletionRequest.Messages := providerMessages chat;
     ChatCompletionRequest.MaxTokens := ChatConfig.MaxTokens (Chat.Config chat);
     ChatCompletionRequest.Temperature := ChatConfig.Temperature (Chat.Config chat);
     ChatCompletionRequest.TopP := ChatConfig.TopP (Chat.Config chat);
     ChatCompletionRequest.Stop := ChatConfig.Stop (Chat.Config chat);
     ChatCompletionRequest.PresencePenalty :=
       ChatConfig.PresencePenalty (Chat.Config chat);
     ChatCompletionRequest.FrequencyPenalty :=
       ChatConfig.PresencePenalty (Chat.Config chat);
     ChatCompletionRequest.Stream := false |}.

(** Lines 89-105: the provider call. *)
Definition openStream (chat : Chat.t) : Run ChatCompletionStream.t :=
  emit (EvCreateChatCompletionStream (completionRequest chat)) ;;;
  match CreateChatCompletionStream uc (completionRequest chat) with
  | Error err => fail ("error creating chat completion: " +++ err)
  | Ok resp => ret resp
  end.

(** Lines 109-124: the [for] loop around [resp.Recv()].  [fullResponse] is
    the text held by the [strings.Builder]; [response.Choices[0]] panics on
    an empty slice. *)
Fixpoint drain (chat : Chat.t)
    (fragments : list ChatCompletionStreamResponse.t) (ending : RecvEnd)
    (fullResponse : string) : Run string :=
  match fragments with
  | [] =>
      emit (EvRecvEnd ending) ;;;
      match ending with
      | EOF => ret fullResponse
      | RecvError err => fail ("error straming response: " +++ err)
      end
  | response :: rest =>
      emit (EvRecv response) ;;;
      match ChatCompletionStreamResponse.Choices response with
      | [] => panic "index out of range [0] with length 0"
      | choice :: _ =>
          let fullResponse :=
            fullResponse +++
            ChatCompletionStreamChoiceDelta.Content
              (ChatCompletionStreamChoice.Delta choice) in
          emit (EvSend
                  {| ChatCompletionOutputDTO.ChatID := Chat.ID chat;
                     ChatCompletionOutputDTO.UserID := Chat.UserID chat;
                     ChatCompletionOutputDTO.Content := fullResponse |}) ;;;
          drain chat rest ending fullResponse
      end
  end.

(** Lines 126-144: the assistant's turn is built, appended and saved. *)
Definition finalize (input : ChatCompletionInputDTO.t) (chat : Chat.t)
    (fullResponse : string) : Run ChatCompletionOutputDTO.t :=
  match NewMessage E "assistant" fullResponse
          (ChatConfig.Model (Chat.Config chat)) with
  | Error err => fail ("error creating assistant message: " +++ err)
  | Ok assistant =>
      emit (EvAddMessage assistant) ;;;
      match AddMessage E chat assistant with
      | Error err => fail ("error adding new mesage: " +++ err)
      | Ok chat =>
          emit (EvSaveChat chat) ;;;
          match SaveChat uc chat with
          | Some err => fail ("error saving chat: " +++ err)
          | None =>
              ret {| ChatCompletionOutputDTO.ChatID :=
                       ChatCompletionInputDTO.ChatID input;
                     ChatCompletionOutputDTO.UserID := Chat.UserID chat;
                     ChatCompletionOutputDTO.Content := fullResponse |}
          end
      end
  end.

(** [Execute] (lines 54-145). *)
Definition Execute (input : ChatCompletionInputDTO.t)
    : Run ChatCompletionOutputDTO.t :=
  chat <- resolveChat input ;;
  chat <- appendUserMessage input chat ;;
  resp <- openStream chat ;;
  fullResponse <- drain chat (ChatCompletionStream.fragments resp)
                    (ChatCompletionStream.ending resp) "" ;;
  finalize input chat fullResponse.

End UseCase.

(** ** Reading a run *)

Definition outcome {A} (r : Run A) : Outcome A := fst r.

Definition trace {A} (r : Run A) : list Event := snd r.

(** The records written to the [Stream] channel, in order. *)
Definition sent (t : list Event) : list ChatCompletionOutputDTO.t :=
  flat_map (fun e => match e with EvSend r => [r] | _ => [] end) t.

(** The fragments that [Recv] returned, in order. *)
Definition received (t : list Event) : list ChatCompletionStreamResponse.t :=
  flat_map (fun e => match e with EvRecv r => [r] | _ => [] end) t.

(** The errors that ended the stream: one at most. *)
Definition ended (t : list Event) : list RecvEnd :=
  flat_map (fun e => match e with EvRecvEnd x => [x] | _ => [] end) t.

(** The conversations handed to [CreateChat], in order. *)
Definition created (t : list Event) : list Chat.t :=
  flat_map (fun e => match e with EvCreateChat c => [c] | _ => [] end) t.

(** The conversations handed to [SaveChat], in order. *)
Definition saved (t : list Event) : list Chat.t :=
  flat_map (fun e => match e with EvSaveChat c => [c] | _ => [] end) t.

(** The messages handed to [AddMessage], in order. *)
Definition appended (t : list Event) : list Message.t :=
  flat_map (fun e => match e with EvAddMessage m => [m] | _ => [] end) t.

(** The requests handed to [CreateChatCompletionStream], in order. *)
Definition requested (t : list Event) : list ChatCompletionRequest.t :=
  flat_map
    (fun e => match e with EvCreateChatCompletionStream r => [r] | _ => [] end)
    t.

(** [response.Choices[0].Delta.Content], when the index is in range. *)
Definition firstDelta (response : ChatCompletionStreamResponse.t)
    : option string :=
  match ChatCompletionStreamResponse.Choices response with
  | [] => None
  | choice :: _ =>
      Some (ChatCompletionStreamChoiceDelta.Content
              (ChatCompletionStreamChoice.Delta choice))
  end.

(** The delta texts of a list of fragments, joined in order. *)
Fixpoint concatDeltas (fragments : list ChatCompletionStreamResponse.t)
    : string :=
  match fragments with
  | [] => EmptyString
  | response :: rest =>
      match firstDelta response with
      | Some d => d +++ concatDeltas rest
      | None => concatDeltas rest
      end
  end.

(** What the loop of lines 109-124 leaves with once the stream has stopped
    with [ending]. *)
Definition drainEnd (ending : RecvEnd) (fullResponse : string)
    : Outcome string :=
  match ending with
  | EOF => Return fullResponse
  | RecvError err => Fail ("error straming response: " +++ err)
  end.

(** The text held by the builder before the [k]-th send: its initial text,
    then the content of the send before. *)
Definition textBefore (fullResponse : string)
    (records : list ChatCompletionOutputDTO.t) (k : nat) : string :=
  match k with
  | O => fullResponse
  | S j =>
      match nth_error records j with
      | Some r => ChatCompletionOutputDTO.Content r
      | None => EmptyString
      end
  end.

(** A message of the conversation in the provider's format. *)
Definition toProvider (msg : Message.t) : ChatCompletionMessage.t :=
  {| ChatCompletionMessage.Role := Message.Role msg;
     ChatCompletionMessage.Content := Message.Content msg |}.

(** The input with another conversation identifier. *)
Definition withChatID (input : ChatCompletionInputDTO.t) (id : string)
    : ChatCompletionInputDTO.t :=
  {| ChatCompletionInputDTO.ChatID := id;
     ChatCompletionInputDTO.UserID := ChatCompletionInputDTO.UserID input;
     ChatCompletionInputDTO.UserMessage :=
       ChatCompletionInputDTO.UserMessage input;
     ChatCompletionInputDTO.Config := ChatCompletionInputDTO.Config input |}.

(** The identifiers handed to [FindChatByID], in order. *)
Definition looked (t : list Event) : list string :=
  flat_map (fun e => match e with EvFindChatByID id => [id] | _ => [] end) t.

(** The input as another caller would send it: same conversation
    identifier and message, another user and another configuration. *)
Definition withCaller (input : ChatCompletionInputDTO.t) (userID : string)
    (config : ChatCompletionConfigInputDTO.t) : ChatCompletionInputDTO.t :=
  {| ChatCompletionInputDTO.ChatID := ChatCompletionInputDTO.ChatID input;
     ChatCompletionInputDTO.UserID := userID;
     ChatCompletionInputDTO.UserMessage :=
       ChatCompletionInputDTO.UserMessage input;
     ChatCompletionInputDTO.Config := config |}.

(** ** An implementation of the entities *)

(** Modelled from the spec: the role of a message is one of [system],
    [user], [assistant]. *)
Definition validRole (role : string) : bool :=
  String.eqb role "system" || String.eqb role "user"
  || String.eqb role "assistant".

(** Modelled from the spec: a text is validated against the model's
    context size.  The spec leaves the token measure open; here every
    character counts for one token. *)
Definition countTokens (content : string) : Z :=
  Z.of_nat (String.length content).

(** Modelled from the spec: [entity.NewModel]. *)
Definition spec_NewModel (name : string) (maxTokens : Z) : Model.t :=
  {| Model.Name := name; Model.MaxTokens := maxTokens |}.

(** Modelled from the spec: [entity.NewMessage] rejects an unknown role and
    a text too long for the model's context window. *)
Definition spec_NewMessage (role content : string) (model : Model.t)
    : result Message.t :=
  if negb (validRole role) then Error "invalid role"
  else if (Model.MaxTokens model <? countTokens content)%Z
       then Error "message exceeds the model context window"
       else Ok {| Message.Role := role;
                  Message.Content := content;
                  Message.Model := model |}.

(** Modelled from the spec: [entity.NewChat] builds a conversation under a
    fresh identifier [newID], seeded with the initial message. *)
Definition spec_NewChat (newID : string) (userID : string)
    (initialMessage : Message.t) (chatConfig : ChatConfig.t)
    : result Chat.t :=
  Ok {| Chat.ID := newID;
        Chat.UserID := userID;
        Chat.Messages := [initialMessage];
        Chat.Config := chatConfig |}.

(** Modelled from the spec: [Chat.AddMessage] appends at the end. *)
Definition spec_AddMessage (chat : Chat.t) (msg : Message.t)
    : result Chat.t :=
  Ok {| Chat.ID := Chat.ID chat;
        Chat.UserID := Chat.UserID chat;
        Chat.Messages := Chat.Messages chat ++ [msg];
        Chat.Config := Chat.Config chat |}.

(** Modelled from the spec: package [entity], new conversations being
    numbered [newID]. *)
Definition spec_entity (newID : string) : Entity :=
  {| NewModel := spec_NewModel;
     NewMessage := spec_NewMessage;
     NewChat := spec_NewChat newID;
     AddMessage := spec_AddMessage |}.

(** ** Sample collaborators and inputs *)

Definition f32_half : float32 := S754_finite false 8388608 (-24).
Definition f32_one : float32 := S754_finite false 8388608 (-23).

(** A fragment with one choice carrying [delta]. *)
Definition fragment (delta : string) : ChatCompletionStreamResponse.t :=
  {| ChatCompletionStreamResponse.Choices :=
       [ {| ChatCompletionStreamChoice.Delta :=
              {| ChatCompletionStreamChoiceDelta.Content := delta |} |} ] |}.

(** A fragment whose choice list is empty. *)
Definition emptyFragment : ChatCompletionStreamResponse.t :=
  {| ChatCompletionStreamResponse.Choices := [] |}.

(** A gateway that answers every lookup with [found] and accepts every
    write, next to a provider that answers every request with [stream]. *)
Definition sample_uc (found : result Chat.t)
    (stream : result ChatCompletionStream.t) : ChatCompletionUseCase :=
  {| FindChatByID := fun _ => found;
     CreateChat := fun _ => None;
     SaveChat := fun _ => None;
     CreateChatCompletionStream := fun _ => stream |}.

Definition sample_config (modelMaxToken : Z)
    : ChatCompletionConfigInputDTO.t :=
  {| ChatCompletionConfigInputDTO.Model := "gpt-3.5-turbo";
     ChatCompletionConfigInputDTO.ModelMaxToken := modelMaxToken;
     ChatCompletionConfigInputDTO.Temperature := f32_one;
     ChatCompletionConfigInputDTO.TopP := f32_one;
     ChatCompletionConfigInputDTO.N := 1;
     ChatCompletionConfigInputDTO.Stop := [];
     ChatCompletionConfigInputDTO.MaxTokens := 300;
     ChatCompletionConfigInputDTO.PresencePenalty := f32_half;
     ChatCompletionConfigInputDTO.FrequencyePenalty := f32_one;
     ChatCompletionConfigInputDTO.InitialSystemMessage := "You are helpful" |}.

Definition sample_input (modelMaxToken : Z) : ChatCompletionInputDTO.t :=
  {| ChatCompletionInputDTO.ChatID := "chat-1";
     ChatCompletionInputDTO.UserID := "user-1";
     ChatCompletionInputDTO.UserMessage := "hi";
     ChatCompletionInputDTO.Config := sample_config modelMaxToken |}.

(** The provider streams "He", "llo", "!" and ends cleanly. *)
Definition hello_stream : ChatCompletionStream.t :=
  {| ChatCompletionStream.fragments :=
       [fragment "He"; fragment "llo"; fragment "!"];
     ChatCompletionStream.ending := EOF |}.

(** The provider streams "He" and then fails. *)
Definition broken_stream : ChatCompletionStream.t :=
  {| ChatCompletionStream.fragments := [fragment "He"];
     ChatCompletionStream.ending := RecvError "unexpected EOF in body" |}.

(** The provider streams "He" and then a fragment without choices. *)
Definition choiceless_stream : ChatCompletionStream.t :=
  {| ChatCompletionStream.fragments :=
       [fragment "He"; emptyFragment; fragment "!"];
     ChatCompletionStream.ending := EOF |}.

(** A stored conversation whose two penalties differ. *)
Definition stored_chat : Chat.t :=
  {| Chat.ID := "chat-1";
     Chat.UserID := "user-1";
     Chat.Messages :=
       [ {| Message.Role := "system";
            Message.Content := "You are helpful";
            Message.Model := spec_NewModel "gpt-3.5-turbo" 4096 |} ];
     Chat.Config :=
       {| ChatConfig.Temperature := f32_one;
          ChatConfig.TopP := f32_one;
          ChatConfig.N := 1;
          ChatConfig.Stop := [];
          ChatConfig.MaxTokens := 300;
          ChatConfig.PresencePenalty := f32_half;
          ChatConfig.FrequencyePenalty := f32_one;
          ChatConfig.Model := spec_NewModel "gpt-3.5-turbo" 4096 |} |}.

(** No record for the identifier: a conversation is created. *)
Definition fresh_run (stream : ChatCompletionStream.t)
    : Run ChatCompletionOutputDTO.t :=
  Execute (spec_entity "chat-7f3a")
    (sample_uc (Error "chat not found") (Ok stream)) (sample_input 4096).

(** The identifier names [stored_chat]. *)
Definition stored_run (stream : ChatCompletionStream.t)
    : Run ChatCompletionOutputDTO.t :=
  Execute (spec_entity "chat-7f3a")
    (sample_uc (Ok stored_chat) (Ok stream)) (sample_input 4096).

(** No record for the identifier, and a model whose context holds no
    token: the initial system message is rejected. *)
Definition starved_run : Run ChatCompletionOutputDTO.t :=
  Execute (spec_entity "chat-7f3a")
    (sample_uc (Error "chat not found") (Ok hello_stream)) (sample_input 0).

(** The gateway is out of reach. *)
Definition unreachable_run : Run ChatCompletionOutputDTO.t :=
  Execute (spec_entity "chat-7f3a")
    (sample_uc (Error "connection refused") (Ok hello_stream))
    (sample_input 4096).

(** [stored_chat] after the user's turn "hi". *)
Definition stored_chat_hi : Chat.t :=
  {| Chat.ID := Chat.ID stored_chat;
     Chat.UserID := Chat.UserID stored_chat;
     Chat.Messages :=
       Chat.Messages stored_chat ++
       [ {| Message.Role := "user";
            Message.Content := "hi";
            Message.Model := spec_NewModel "gpt-3.5-turbo" 4096 |} ];
     Chat.Config := Chat.Config stored_chat |}.

(** A gateway that has no record and refuses every write, next to a
    provider that answers every request with [stream]. *)
Definition refusing_uc (stream : result ChatCompletionStream.t)
    : ChatCompletionUseCase :=
  {| FindChatByID := fun _ => Error "chat not found";
     CreateChat := fun _ => Some "disk full";
     SaveChat := fun _ => Some "disk full";
     CreateChatCompletionStream := fun _ => stream |}.

(** A stored conversation under a model whose context holds one token. *)
Definition tiny_chat : Chat.t :=
  {| Chat.ID := "chat-1";
     Chat.UserID := "user-1";
     Chat.Messages := [];
     Chat.Config :=
       {| ChatConfig.Temperature := f32_one;
          ChatConfig.TopP := f32_one;
          ChatConfig.N := 1;
          ChatConfig.Stop := [];
          ChatConfig.MaxTokens := 300;
          ChatConfig.PresencePenalty := f32_half;
          ChatConfig.FrequencyePenalty := f32_one;
          ChatConfig.Model := spec_NewModel "gpt-3.5-turbo" 1 |} |}.

(** Another caller's configuration. *)
Definition other_config : ChatCompletionConfigInputDTO.t :=
  {| ChatCompletionConfigInputDTO.Model := "gpt-4";
     ChatCompletionConfigInputDTO.ModelMaxToken := 8192;
     ChatCompletionConfigInputDTO.Temperature := f32_half;
     ChatCompletionConfigInputDTO.TopP := f32_half;
     ChatCompletionConfigInputDTO.N := 2;
     ChatCompletionConfigInputDTO.Stop := ["END"];
     ChatCompletionConfigInputDTO.MaxTokens := 50;
     ChatCompletionConfigInputDTO.PresencePenalty := f32_one;
     ChatCompletionConfigInputDTO.FrequencyePenalty := f32_half;
     ChatCompletionConfigInputDTO.InitialSystemMessage := "Be brief" |}.

(** ** The exits of [Execute]
    One constructor per [return] statement of [Execute], and one for the
    run-time panic of the index expression.  Each records the answers of
    the collaborators that lead to the exit and the calls made on the
    way. *)

Section Exits.

Variable E : Entity.
Variable uc : ChatCompletionUseCase.
Variable input : ChatCompletionInputDTO.t.

(** The conversation in hand at line 72, and the calls made to get it. *)
Inductive Resolved : Chat.t -> list Event -> Prop :=
| resolved_found chat :
    FindChatByID uc (ChatCompletionInputDTO.ChatID input) = Ok chat ->
    Resolved chat [EvFindChatByID (ChatCompletionInputDTO.ChatID input)]
| resolved_new chat :
    FindChatByID uc (ChatCompletionInputDTO.ChatID input)
      = Error "chat not found" ->
    createNewChat E input = Ok chat ->
    CreateChat uc chat = None ->
    Resolved chat [EvFindChatByID (ChatCompletionInputDTO.ChatID input);
                   EvCreateChat chat].

(** The conversation and the stream in hand at line 107: [chat0] is the
    resolved conversation, [chat] the same after the user's turn. *)
Inductive Streaming
  : Chat.t -> Chat.t -> ChatCompletionStream.t -> list Event -> Prop :=
| streaming chat0 pre userMessage chat resp :
    Resolved chat0 pre ->
    NewMessage E "user" (ChatCompletionInputDTO.UserMessage input)
      (ChatConfig.Model (Chat.Config chat0)) = Ok userMessage ->
    AddMessage E chat0 userMessage = Ok chat ->
    CreateChatCompletionStream uc (completionRequest chat) = Ok resp ->
    Streaming chat0 chat resp
      (pre ++ [EvAddMessage userMessage;
               EvCreateChatCompletionStream (completionRequest chat)]).

(** The text in hand at line 126, after a clean end of stream. *)
Inductive Drained : Chat.t -> Chat.t -> string -> list Event -> Prop :=
| drained chat0 chat resp pre fullResponse td :
    Streaming chat0 chat resp pre ->
    drain chat (ChatCompletionStream.fragments resp)
      (ChatCompletionStream.ending resp) "" = (Return fullResponse, td) ->
    Drained chat0 chat fullResponse (pre ++ td).

Inductive Exit : Outcome ChatCompletionOutputDTO.t -> list Event -> Prop :=
| exit_fetch err :
    FindChatByID uc (ChatCompletionInputDTO.ChatID input) = Error err ->
    err <> "chat not found" ->
    Exit (Fail ("error fetching existing chat: " +++ err))
      [EvFindChatByID (ChatCompletionInputDTO.ChatID input)]
| exit_create err :
    FindChatByID uc (ChatCompletionInputDTO.ChatID input)
      = Error "chat not found" ->
    createNewChat E input = Error err ->
    Exit (Fail ("error creating new chat: " +++ err))
      [EvFindChatByID (ChatCompletionInputDTO.ChatID input)]
| exit_persist chat err :
    FindChatByID uc (ChatCompletionInputDTO.ChatID input)
      = Error "chat not found" ->
    createNewChat E input = Ok chat ->
    CreateChat uc chat = Some err ->
    Exit (Fail ("error persisting new chat: " +++ err))
      [EvFindChatByID (ChatCompletionInputDTO.ChatID input);
       EvCreateChat chat]
| exit_user_message chat0 pre err :
    Resolved chat0 pre ->
    NewMessage E "user" (ChatCompletionInputDTO.UserMessage input)
      (ChatConfig.Model (Chat.Config chat0)) = Error err ->
    Exit (Fail ("error creating user message: " +++ err)) pre
| exit_add_user chat0 pre userMessage err :
    Resolved chat0 pre ->
    NewMessage E "user" (ChatCompletionInputDTO.UserMessage input)
      (ChatConfig.Model (Chat.Config chat0)) = Ok userMessage ->
    AddMessage E chat0 userMessage = Error err ->
    Exit (Fail ("error adding new message: " +++ err))
      (pre ++ [EvAddMessage userMessage])
| exit_provider chat0 pre userMessage chat err :
    Resolved chat0 pre ->
    NewMessage E "user" (ChatCompletionInputDTO.UserMessage input)
      (ChatConfig.Model (Chat.Config chat0)) = Ok userMessage ->
    AddMessage E chat0 userMessage = Ok chat ->
    CreateChatCompletionStream uc (completionRequest chat) = Error err ->
    Exit (Fail ("error creating chat completion: " +++ err))
      (pre ++ [EvAddMessage userMessage;
               EvCreateChatCompletionStream (completionRequest chat)])
| exit_recv chat0 chat resp pre err td :
    Streaming chat0 chat resp pre ->
    drain chat (ChatCompletionStream.fragments resp)
      (ChatCompletionStream.ending resp) "" = (Fail err, td) ->
    Exit (Fail err) (pre ++ td)
| exit_index chat0 chat resp pre msg td :
    Streaming chat0 chat resp pre ->
    drain chat (ChatCompletionStream.fragments resp)
      (ChatCompletionStream.ending resp) "" = (Panic msg, td) ->
    Exit (Panic msg) (pre ++ td)
| exit_assistant_message chat0 chat fullResponse pre err :
    Drained chat0 chat fullResponse pre ->
    NewMessage E "assistant" fullResponse
      (ChatConfig.Model (Chat.Config chat)) = Error err ->
    Exit (Fail ("error creating assistant message: " +++ err)) pre
| exit_add_assistant chat0 chat fullResponse pre assistant err :
    Drained chat0 chat fullResponse pre ->
    NewMessage E "assistant" fullResponse
      (ChatConfig.Model (Chat.Config chat)) = Ok assistant ->
    AddMessage E chat assistant = Error err ->
    Exit (Fail ("error adding new mesage: " +++ err))
      (pre ++ [EvAddMessage assistant])
| exit_save chat0 chat fullResponse pre assistant chat' err :
    Drained chat0 chat fullResponse pre ->
    NewMessage E "assistant" fullResponse
      (ChatConfig.Model (Chat.Config chat)) = Ok assistant ->
    AddMessage E chat assistant = Ok chat' ->
    SaveChat uc chat' = Some err ->
    Exit (Fail ("error saving chat: " +++ err))
      (pre ++ [EvAddMessage assistant; EvSaveChat chat'])
| exit_ok chat0 chat fullResponse pre assistant chat' :
    Drained chat0 chat fullResponse pre ->
    NewMessage E "assistant" fullResponse
      (ChatConfig.Model (Chat.Config chat)) = Ok assistant ->
    AddMessage E chat assistant = Ok chat' ->
    SaveChat uc chat' = None ->
    Exit (Return
            {| ChatCompletionOutputDTO.ChatID :=
                 ChatCompletionInputDTO.ChatID input;
               ChatCompletionOutputDTO.UserID := Chat.UserID chat';
               ChatCompletionOutputDTO.Content := fullResponse |})
      (pre ++ [EvAddMessage assistant; EvSaveChat chat']).

End Exits.

(** * Properties *)

(** ** Strings and traces *)

Lemma append_empty_r (s : string) : s +++ EmptyString = s.
Proof.
  induction s as [|c s IH]; simpl; [reflexivity|].
  now rewrite IH.
Qed.

Lemma append_assoc (a b c : string) : (a +++ b) +++ c = a +++ (b +++ c).
Proof.
  induction a as [|x a IH]; simpl; [reflexivity|].
  now rewrite IH.
Qed.

Lemma sent_app (t1 t2 : list Event) : sent (t1 ++ t2) = sent t1 ++ sent t2.
Proof. apply flat_map_app. Qed.

Lemma received_app (t1 t2 : list Event) :
  received (t1 ++ t2) = received t1 ++ received t2.
Proof. apply flat_map_app. Qed.

Lemma ended_app (t1 t2 : list Event) : ended (t1 ++ t2) = ended t1 ++ ended t2.
Proof. apply flat_map_app. Qed.

Lemma created_app (t1 t2 : list Event) :
  created (t1 ++ t2) = created t1 ++ created t2.
Proof. apply flat_map_app. Qed.

Lemma saved_app (t1 t2 : list Event) :
  saved (t1 ++ t2) = saved t1 ++ saved t2.
Proof. apply flat_map_app. Qed.

Lemma appended_app (t1 t2 : list Event) :
  appended (t1 ++ t2) = appended t1 ++ appended t2.
Proof. apply flat_map_app. Qed.

Lemma requested_app (t1 t2 : list Event) :
  requested (t1 ++ t2) = requested t1 ++ requested t2.
Proof. apply flat_map_app. Qed.

Create Rewrite HintDb trace.
#[global] Hint Rewrite sent_app received_app ended_app created_app saved_app
  appended_app requested_app app_nil_r : trace.

(** ** The exits cover every run *)

Lemma resolveChat_exits E uc input :
  (exists chat pre,
      resolveChat E uc input = (Return chat, pre) /\
      Resolved E uc input chat pre) \/
  (exists err pre,
      resolveChat E uc input = (Fail err, pre) /\
      Exit E uc input (Fail err) pre).
Proof.
  unfold resolveChat; simpl.
  destruct (FindChatByID uc _) as [chat|err] eqn:Hfind.
  - left. exists chat. eexists. split; [reflexivity|].
    now apply resolved_found.
  - destruct (String.eqb_spec err "chat not found") as [->|Hne].
    + destruct (createNewChat E input) as [chat|e] eqn:Hnew.
      * simpl. destruct (CreateChat uc chat) as [e|] eqn:Hcreate.
        -- right. do 2 eexists. split; [reflexivity|].
           now apply exit_persist.
        -- left. do 2 eexists. split; [reflexivity|].
           now apply resolved_new.
      * right. do 2 eexists. split; [reflexivity|].
        now apply exit_create.
    + right. do 2 eexists. split; [reflexivity|].
      now apply exit_fetch.
Qed.

Theorem Execute_exits E uc input :
  Exit E uc input (outcome (Execute E uc input)) (trace (Execute E uc input)).
Proof.
  unfold Execute, outcome, trace.
  destruct (resolveChat_exits E uc input)
    as [(chat0 & pre & -> & Hres)|(err & pre & -> & Hexit)];
    [|exact Hexit].
  cbn [bind]. unfold appendUserMessage.
  destruct (NewMessage E "user" _ _) as [userMessage|err] eqn:Huser.
  2:{ cbn. rewrite app_nil_r. eapply exit_user_message; eassumption. }
  cbn [bind emit].
  destruct (AddMessage E chat0 userMessage) as [chat|err] eqn:Hadd.
  2:{ cbn. eapply exit_add_user; eassumption. }
  cbn [bind ret fail app]. unfold openStream. cbn [bind emit].
  destruct (CreateChatCompletionStream uc _) as [resp|err] eqn:Hopen.
  2:{ cbn. eapply exit_provider; eassumption. }
  cbn [bind ret fail app].
  pose proof (streaming E uc input _ _ _ _ _ Hres Huser Hadd Hopen) as Hs.
  destruct (drain chat _ _ _) as [[fullResponse|err|msg] td] eqn:Hdrain.
  2:{ cbn. change (?a :: ?b :: ?l) with ([a; b] ++ l). rewrite app_assoc.
      eapply exit_recv; eassumption. }
  2:{ cbn. change (?a :: ?b :: ?l) with ([a; b] ++ l). rewrite app_assoc.
      eapply exit_index; eassumption. }
  pose proof (drained E uc input _ _ _ _ _ _ Hs Hdrain) as Hd.
  cbn [bind]. unfold finalize.
  destruct (NewMessage E "assistant" fullResponse
              (ChatConfig.Model (Chat.Config chat)))
    as [assistant|err] eqn:Hasst.
  2:{ cbn. rewrite ?app_nil_r.
      change (?a :: ?b :: ?l) with ([a; b] ++ l). rewrite app_assoc.
      eapply exit_assistant_message; eassumption. }
  cbn [bind emit].
  destruct (AddMessage E chat assistant) as [chat'|err] eqn:Hadd'.
  2:{ cbn. change (?a :: ?b :: ?l) with ([a; b] ++ l).
      rewrite !app_assoc.
      eapply exit_add_assistant; eassumption. }
  cbn [bind emit].
  destruct (SaveChat uc chat') as [err|] eqn:Hsave.
  - cbn. change (?a :: ?b :: ?l) with ([a; b] ++ l). rewrite !app_assoc.
    eapply exit_save; eassumption.
  - cbn. change (?a :: ?b :: ?l) with ([a; b] ++ l). rewrite !app_assoc.
    eapply exit_ok; eassumption.
Qed.

(** Splits a goal about a run of [Execute] along the twelve exits. *)
Ltac by_exit E uc input :=
  let Hexit := fresh "Hexit" in
  let o := fresh "o" in
  let t := fresh "t" in
  pose proof (Execute_exits E uc input) as Hexit;
  generalize dependent (trace (Execute E uc input));
  generalize dependent (outcome (Execute E uc input));
  intros o t Hexit;
  destruct Hexit as
    [ err Hf Hne | err Hf Hn | c err Hf Hn Hc
    | c0 pre err Hres Hu | c0 pre m err Hres Hu Ha
    | c0 pre m c err Hres Hu Ha Ho
    | c0 c resp pre err td Hs Hd | c0 c resp pre msg td Hs Hd
    | c0 c full pre err Hdr Hm | c0 c full pre m err Hdr Hm Ha
    | c0 c full pre m c' err Hdr Hm Ha Hsv
    | c0 c full pre m c' Hdr Hm Ha Hsv ].

(** ** The drain loop *)

(** Unfolds the readings of a run down to the trace they read. *)
Ltac observe :=
  unfold outcome, trace, sent, received, ended, created, saved, appended,
    requested in *;
  cbn [fst snd flat_map app] in *.

Section Drain.

Variable chat : Chat.t.
Variable ending : RecvEnd.

(** One turn of the loop on a fragment that has a choice. *)
Lemma drain_step response rest choice choices fullResponse :
  ChatCompletionStreamResponse.Choices response = choice :: choices ->
  drain chat (response :: rest) ending fullResponse =
  let text :=
    fullResponse +++
    ChatCompletionStreamChoiceDelta.Content
      (ChatCompletionStreamChoice.Delta choice) in
  (outcome (drain chat rest ending text),
   EvRecv response
   :: EvSend {| ChatCompletionOutputDTO.ChatID := Chat.ID chat;
                ChatCompletionOutputDTO.UserID := Chat.UserID chat;
                ChatCompletionOutputDTO.Content := text |}
   :: trace (drain chat rest ending text)).
Proof.
  intros Hc. cbn [drain bind emit]. rewrite Hc. cbn [bind emit].
  destruct (drain chat rest ending _) as [[s|err|msg] t]; reflexivity.
Qed.

(** One turn of the loop on a fragment without choices. *)
Lemma drain_stuck response rest fullResponse :
  ChatCompletionStreamResponse.Choices response = [] ->
  drain chat (response :: rest) ending fullResponse =
  (Panic "index out of range [0] with length 0", [EvRecv response]).
Proof. intros Hc. cbn [drain bind emit]. now rewrite Hc. Qed.

Lemma drain_nil fullResponse :
  drain chat [] ending fullResponse =
  (drainEnd ending fullResponse, [EvRecvEnd ending]).
Proof. unfold drainEnd. cbn. now destruct ending. Qed.

(** The loop talks to the stream and to the channel only. *)
Lemma drain_silent fragments fullResponse :
  let t := trace (drain chat fragments ending fullResponse) in
  created t = [] /\ saved t = [] /\ appended t = [] /\ requested t = [].
Proof.
  revert fullResponse.
  induction fragments as [|response rest IH]; intros fullResponse.
  - rewrite drain_nil. now cbn.
  - destruct (ChatCompletionStreamResponse.Choices response)
      as [|choice choices] eqn:Hc.
    + rewrite (drain_stuck _ _ _ Hc). now cbn.
    + rewrite (drain_step _ _ _ _ _ Hc). observe. apply IH.
Qed.

(** When the loop sees the stream stop, every fragment has been received
    and the loop leaves with the whole text or with the stream's error. *)
Lemma drain_ended fragments fullResponse x :
  In x (ended (trace (drain chat fragments ending fullResponse))) ->
  x = ending /\
  received (trace (drain chat fragments ending fullResponse)) = fragments /\
  outcome (drain chat fragments ending fullResponse)
    = drainEnd ending (fullResponse +++ concatDeltas fragments).
Proof.
  revert fullResponse.
  induction fragments as [|response rest IH]; intros fullResponse.
  - rewrite drain_nil. cbn. rewrite append_empty_r.
    intros [<-|[]]. auto.
  - destruct (ChatCompletionStreamResponse.Choices response)
      as [|choice choices] eqn:Hc.
    + rewrite (drain_stuck _ _ _ Hc). cbn. intros [].
    + rewrite (drain_step _ _ _ _ _ Hc). observe.
      intros Hin. destruct (IH _ Hin) as (-> & Hrecv & Hout).
      cbn [concatDeltas]. unfold firstDelta.
      rewrite Hc, Hrecv, Hout, append_assoc. auto.
Qed.

(** Leaving the loop normally or with an error means the stream stopped. *)
Lemma drain_left fragments fullResponse :
  (exists msg,
      outcome (drain chat fragments ending fullResponse) = Panic msg) \/
  ended (trace (drain chat fragments ending fullResponse)) = [ending].
Proof.
  revert fullResponse.
  induction fragments as [|response rest IH]; intros fullResponse.
  - rewrite drain_nil. now right.
  - destruct (ChatCompletionStreamResponse.Choices response)
      as [|choice choices] eqn:Hc.
    + rewrite (drain_stuck _ _ _ Hc). left. now eexists.
    + rewrite (drain_step _ _ _ _ _ Hc). observe. apply IH.
Qed.

(** The loop panics exactly when it has received a fragment without
    choices. *)
Lemma drain_panics fragments fullResponse :
  (exists msg,
      outcome (drain chat fragments ending fullResponse) = Panic msg) <->
  (exists response,
      In response
         (received (trace (drain chat fragments ending fullResponse))) /\
      ChatCompletionStreamResponse.Choices response = []).
Proof.
  revert fullResponse.
  induction fragments as [|response rest IH]; intros fullResponse.
  - rewrite drain_nil. cbn. unfold drainEnd. split.
    + intros [msg H]. now destruct ending.
    + intros (r & [] & _).
  - destruct (ChatCompletionStreamResponse.Choices response)
      as [|choice choices] eqn:Hc.
    + rewrite (drain_stuck _ _ _ Hc). cbn. split.
      * intros _. exists response. split; [now left|exact Hc].
      * intros _. now eexists.
    + rewrite (drain_step _ _ _ _ _ Hc). observe. rewrite IH. split.
      * intros (r & Hin & Hr). exists r. split; [now right|exact Hr].
      * intros (r & [<-|Hin] & Hr); [congruence|]. exists r. now split.
Qed.

(** Every record sent carries the identifiers of [chat]. *)
Lemma drain_sent_ids fragments fullResponse :
  Forall (fun r => ChatCompletionOutputDTO.ChatID r = Chat.ID chat /\
                   ChatCompletionOutputDTO.UserID r = Chat.UserID chat)
    (sent (trace (drain chat fragments ending fullResponse))).
Proof.
  revert fullResponse.
  induction fragments as [|response rest IH]; intros fullResponse.
  - rewrite drain_nil. constructor.
  - destruct (ChatCompletionStreamResponse.Choices response)
      as [|choice choices] eqn:Hc.
    + rewrite (drain_stuck _ _ _ Hc). constructor.
    + rewrite (drain_step _ _ _ _ _ Hc). observe. constructor; auto.
Qed.

(** The [k]-th record sent holds the text before it followed by the delta
    of the [k]-th fragment received. *)
Lemma drain_sent_nth fragments fullResponse k r :
  let t := trace (drain chat fragments ending fullResponse) in
  nth_error (sent t) k = Some r ->
  exists response delta,
    nth_error (received t) k = Some response /\
    firstDelta response = Some delta /\
    ChatCompletionOutputDTO.Content r
      = textBefore fullResponse (sent t) k +++ delta.
Proof.
  revert fullResponse k.
  induction fragments as [|response rest IH]; intros fullResponse k.
  - rewrite drain_nil. cbn. now destruct k.
  - destruct (ChatCompletionStreamResponse.Choices response)
      as [|choice choices] eqn:Hc.
    + rewrite (drain_stuck _ _ _ Hc). cbn. now destruct k.
    + rewrite (drain_step _ _ _ _ _ Hc). observe.
      destruct k as [|j]; cbn.
      * intros [= <-]. exists response. eexists.
        unfold firstDelta. rewrite Hc. cbn. auto.
      * intros Hnth. destruct (IH _ _ Hnth) as (r' & d & Hr' & Hd & Heq).
        exists r', d. repeat split; trivial.
        rewrite Heq. now destruct j.
Qed.

End Drain.

(** ** The stages before and after the loop *)

Lemma Resolved_quiet E uc input chat pre :
  Resolved E uc input chat pre ->
  sent pre = [] /\ received pre = [] /\ ended pre = [] /\
  appended pre = [] /\ saved pre = [] /\ requested pre = [].
Proof. intros []; now cbn. Qed.

Lemma Streaming_quiet E uc input chat0 chat resp pre :
  Streaming E uc input chat0 chat resp pre ->
  sent pre = [] /\ received pre = [] /\ ended pre = [] /\ saved pre = [] /\
  requested pre = [completionRequest chat] /\
  exists userMessage,
    appended pre = [userMessage] /\
    NewMessage E "user" (ChatCompletionInputDTO.UserMessage input)
      (ChatConfig.Model (Chat.Config chat0)) = Ok userMessage /\
    AddMessage E chat0 userMessage = Ok chat.
Proof.
  intros [c0 p m c r Hres Huser Hadd Hopen].
  destruct (Resolved_quiet _ _ _ _ _ Hres) as (H1 & H2 & H3 & H4 & H5 & H6).
  autorewrite with trace. rewrite H1, H2, H3, H4, H5, H6. cbn.
  repeat split. now exists m.
Qed.

Lemma Streaming_open E uc input chat0 chat resp pre :
  Streaming E uc input chat0 chat resp pre ->
  CreateChatCompletionStream uc (completionRequest chat) = Ok resp.
Proof. now intros []. Qed.

Lemma Drained_stream E uc input chat0 chat fullResponse pre :
  Drained E uc input chat0 chat fullResponse pre ->
  exists resp p td,
    pre = p ++ td /\
    Streaming E uc input chat0 chat resp p /\
    drain chat (ChatCompletionStream.fragments resp)
      (ChatCompletionStream.ending resp) "" = (Return fullResponse, td) /\
    ChatCompletionStream.ending resp = EOF /\
    ended td = [EOF] /\
    received td = ChatCompletionStream.fragments resp /\
    fullResponse = concatDeltas (ChatCompletionStream.fragments resp).
Proof.
  intros [c0 c resp p full td Hs Hd].
  exists resp, p, td. repeat split; trivial.
  all: destruct (drain_left c (ChatCompletionStream.ending resp)
                   (ChatCompletionStream.fragments resp) "")
         as [[msg Hp]|Hend];
    [unfold outcome in Hp; rewrite Hd in Hp; discriminate|].
  all: assert (Hin : In (ChatCompletionStream.ending resp)
                       (ended (trace (drain c
                          (ChatCompletionStream.fragments resp)
                          (ChatCompletionStream.ending resp) ""))))
         by (rewrite Hend; now left).
  all: destruct (drain_ended _ _ _ _ _ Hin) as (_ & Hrecv & Hout).
  all: unfold outcome, trace in *; rewrite Hd in *; cbn [fst snd] in *.
  all: unfold drainEnd in Hout.
  all: destruct (ChatCompletionStream.ending resp); try discriminate.
  all: try injection Hout as ->; auto.
Qed.

(** The loop of lines 81-87 is a [map]. *)
Lemma providerMessages_map chat :
  providerMessages chat = map toProvider (Chat.Messages chat).
Proof.
  unfold providerMessages.
  enough (H : forall l acc,
             fold_left
               (fun messages msg =>
                  messages ++
                  [ {| ChatCompletionMessage.Role := Message.Role msg;
                       ChatCompletionMessage.Content := Message.Content msg |} ])
               l acc = acc ++ map toProvider l) by apply H.
  induction l as [|m l IH]; intros acc; cbn.
  - now rewrite app_nil_r.
  - rewrite IH, <- app_assoc. reflexivity.
Qed.

(** [createNewChat] never reads the input's conversation identifier. *)
Lemma createNewChat_ChatID E input id :
  createNewChat E (withChatID input id) = createNewChat E input.
Proof. reflexivity. Qed.

Lemma createNewChat_seed E input chat :
  EntityLaws E ->
  createNewChat E input = Ok chat ->
  Chat.UserID chat = ChatCompletionInputDTO.UserID input /\
  exists initialMessage,
    Chat.Messages chat = [initialMessage] /\
    Message.Role initialMessage = "system" /\
    Message.Content initialMessage =
      ChatCompletionConfigInputDTO.InitialSystemMessage
        (ChatCompletionInputDTO.Config input).
Proof.
  intros laws. unfold createNewChat.
  destruct (NewMessage E "system" _ _) as [m|err] eqn:Hm; [|discriminate].
  destruct (NewChat E _ m _) as [c|err] eqn:Hc; [|discriminate].
  intros [= <-].
  destruct (NewMessage_fields E laws _ _ _ _ Hm) as (Hrole & Hcontent).
  destruct (NewChat_fields E laws _ _ _ _ Hc) as (Huser & Hmsgs & _).
  split; [exact Huser|]. now exists m.
Qed.

(** The implementation of the entities meets the laws. *)
Lemma spec_entity_laws newID : EntityLaws (spec_entity newID).
Proof.
  split; cbn.
  - intros role content model m. unfold spec_NewMessage.
    destruct (negb (validRole role)); [discriminate|].
    destruct (_ <? _)%Z; [discriminate|].
    now intros [= <-].
  - intros userID m cfg c. unfold spec_NewChat. now intros [= <-].
  - intros c m c'. unfold spec_AddMessage. now intros [= <-].
Qed.

(** Either a run never reaches the loop, or what it sends and receives is
    what the loop sends and receives. *)
Lemma Execute_stream E uc input :
  (sent (trace (Execute E uc input)) = [] /\
   received (trace (Execute E uc input)) = [] /\
   ended (trace (Execute E uc input)) = [] /\
   forall msg, outcome (Execute E uc input) <> Panic msg) \/
  (exists chat0 chat resp pre,
      Streaming E uc input chat0 chat resp pre /\
      let d := drain chat (ChatCompletionStream.fragments resp)
                 (ChatCompletionStream.ending resp) "" in
      sent (trace (Execute E uc input)) = sent (trace d) /\
      received (trace (Execute E uc input)) = received (trace d) /\
      ended (trace (Execute E uc input)) = ended (trace d) /\
      ((exists msg, outcome (Execute E uc input) = Panic msg) <->
       (exists msg, outcome d = Panic msg))).
Proof.
  by_exit E uc input.
  1-3: left; cbn; repeat split; discriminate.
  1-3: left; destruct (Resolved_quiet _ _ _ _ _ Hres) as (H1 & H2 & H3 & _);
       autorewrite with trace; rewrite H1, H2, H3; cbn;
       repeat split; discriminate.
  1-2: right; exists c0, c, resp, pre; split; [exact Hs|];
       destruct (Streaming_quiet _ _ _ _ _ _ _ Hs) as (H1 & H2 & H3 & _);
       autorewrite with trace; rewrite H1, H2, H3; cbn;
       unfold outcome, trace; rewrite Hd; cbn [fst snd];
       repeat split; trivial; try (intros _; now eexists);
       intros [? ?]; discriminate.
  all: right;
       destruct (Drained_stream _ _ _ _ _ _ _ Hdr)
         as (resp & p & td & -> & Hs & Hd & _);
       exists c0, c, resp, p; split; [exact Hs|];
       destruct (Streaming_quiet _ _ _ _ _ _ _ Hs) as (H1 & H2 & H3 & _);
       autorewrite with trace; rewrite H1, H2, H3; cbn;
       unfold outcome, trace; rewrite Hd; cbn [fst snd];
       autorewrite with trace;
       repeat split; trivial; intros [? ?]; discriminate.
Qed.

(** ** The final text *)

(** A run that saw the stream end cleanly left through one of the four
    exits after the loop. *)
Lemma Execute_clean E uc input :
  In EOF (ended (trace (Execute E uc input))) ->
  exists chat0 chat fullResponse pre post,
    Drained E uc input chat0 chat fullResponse pre /\
    trace (Execute E uc input) = pre ++ post /\
    received (trace (Execute E uc input)) = received pre /\
    (forall out, outcome (Execute E uc input) = Return out ->
                 ChatCompletionOutputDTO.Content out = fullResponse) /\
    (post = [] \/
     exists assistant,
       NewMessage E "assistant" fullResponse
         (ChatConfig.Model (Chat.Config chat)) = Ok assistant /\
       (post = [EvAddMessage assistant] \/
        exists chat',
          AddMessage E chat assistant = Ok chat' /\
          post = [EvAddMessage assistant; EvSaveChat chat'])).
Proof.
  by_exit E uc input.
  1-3: cbn; tauto.
  1-3: destruct (Resolved_quiet _ _ _ _ _ Hres) as (_ & _ & H3 & _);
       autorewrite with trace; rewrite H3; cbn; tauto.
  1-2: destruct (Streaming_quiet _ _ _ _ _ _ _ Hs) as (_ & _ & H3 & _);
       autorewrite with trace; rewrite H3; cbn; intros Hin;
       assert (Hin' : In EOF (ended (trace (drain c
                         (ChatCompletionStream.fragments resp)
                         (ChatCompletionStream.ending resp) ""))))
         by (unfold trace; now rewrite Hd);
       destruct (drain_ended _ _ _ _ _ Hin') as (He & _ & Hout);
       unfold outcome, drainEnd in Hout; rewrite Hd, <- He in Hout;
       discriminate.
  all: intros _; exists c0, c, full, pre.
  - exists []. autorewrite with trace. repeat split; trivial.
    + discriminate.
    + now left.
  - exists [EvAddMessage m]. autorewrite with trace. cbn.
    autorewrite with trace. repeat split; trivial.
    + discriminate.
    + right. exists m. auto.
  - exists [EvAddMessage m; EvSaveChat c']. autorewrite with trace. cbn.
    autorewrite with trace. repeat split; trivial.
    + discriminate.
    + right. exists m. split; trivial. right. now exists c'.
  - exists [EvAddMessage m; EvSaveChat c']. autorewrite with trace. cbn.
    autorewrite with trace. repeat split; trivial.
    + now intros out [= <-].
    + right. exists m. split; trivial. right. now exists c'.
Qed.

(** What a run that saw the stream end cleanly holds: the stream is the
    one the provider returned, all its fragments were received, and their
    joined deltas are the [Content] of a value returned, the content of an
    assistant message appended and of the last message of a conversation
    saved. *)
Lemma Execute_clean_content E uc input :
  EntityLaws E ->
  In EOF (ended (trace (Execute E uc input))) ->
  let run := Execute E uc input in
  let text := concatDeltas (received (trace run)) in
  (exists req resp,
      requested (trace run) = [req] /\
      CreateChatCompletionStream uc req = Ok resp /\
      ChatCompletionStream.ending resp = EOF /\
      received (trace run) = ChatCompletionStream.fragments resp) /\
  (forall out,
      outcome run = Return out -> ChatCompletionOutputDTO.Content out = text) /\
  (forall m,
      In m (appended (trace run)) ->
      Message.Role m = "assistant" -> Message.Content m = text) /\
  (forall chat,
      In chat (saved (trace run)) ->
      exists before userMessage assistant,
        appended (trace run) = [userMessage; assistant] /\
        AddMessage E before assistant = Ok chat /\
        Chat.Messages chat = Chat.Messages before ++ [assistant] /\
        Message.Role assistant = "assistant" /\
        Message.Content assistant = text).
Proof.
  intros laws Hclean run text. subst run text.
  destruct (Execute_clean E uc input Hclean)
    as (c0 & c & full & pre & post & Hdr & Ht & Hrecv & Hout & Hpost).
  destruct (Drained_stream _ _ _ _ _ _ _ Hdr)
    as (resp & p & td & -> & Hs & Hd & Hend & Hended & Hrtd & Hfull).
  destruct (Streaming_quiet _ _ _ _ _ _ _ Hs)
    as (_ & Hr & _ & Hsv & Hreq & user & Happ & Huser & Hadd).
  destruct (drain_silent c (ChatCompletionStream.ending resp)
              (ChatCompletionStream.fragments resp) "")
    as (_ & Hdsv & Hdapp & Hdreq).
  unfold trace in Hdsv, Hdapp, Hdreq. rewrite Hd in Hdsv, Hdapp, Hdreq.
  cbn [snd] in Hdsv, Hdapp, Hdreq.
  destruct (NewMessage_fields E laws _ _ _ _ Huser) as (Hurole & _).
  assert (Htext : concatDeltas (received (trace (Execute E uc input))) = full).
  { rewrite Hrecv. autorewrite with trace. rewrite Hr, Hrtd. now cbn. }
  rewrite Htext, Ht. autorewrite with trace.
  rewrite Hsv, Hreq, Happ, Hdsv, Hdapp, Hdreq, Hr, Hrtd. cbn [app].
  split; [|split; [|split]].
  - exists (completionRequest c), resp.
    pose proof (Streaming_open _ _ _ _ _ _ _ Hs) as Hopen.
    destruct Hpost as [->|(a & Ha & [->|(c' & Hc' & ->)])]; cbn;
      rewrite app_nil_r; auto.
  - exact Hout.
  - intros m Hin Hrole.
    destruct Hpost as [->|(a & Ha & Hpost)].
    + cbn in Hin. destruct Hin as [<-|[]]. congruence.
    + destruct (NewMessage_fields E laws _ _ _ _ Ha) as (_ & Hcontent).
      destruct Hpost as [->|(c' & Hc' & ->)]; cbn in Hin;
        destruct Hin as [<-|[<-|[]]]; congruence.
  - intros chat Hin.
    destruct Hpost as [->|(a & Ha & [->|(c' & Hc' & ->)])];
      cbn in Hin; try contradiction.
    destruct Hin as [<-|[]].
    destruct (NewMessage_fields E laws _ _ _ _ Ha) as (Harole & Hcontent).
    destruct (AddMessage_appends E laws _ _ _ Hc') as (_ & _ & _ & Hmsgs).
    exists c, user, a. cbn. repeat split; trivial.
Qed.

(** ** The records sent *)

Lemma nth_error_pred {A} (l : list A) k x :
  nth_error l (S k) = Some x -> exists y, nth_error l k = Some y.
Proof.
  intros H. destruct (nth_error l k) as [y|] eqn:Hk; [now exists y|].
  apply nth_error_None in Hk.
  assert (Hn : nth_error l (S k) = None) by (apply nth_error_None; lia).
  congruence.
Qed.

(** C2.  In every run, the first record sent holds the delta of the first
    fragment received, and every later record holds the content of the
    record sent before it followed by the delta of the fragment with the
    same rank. *)
Theorem C2_partial_results_grow E uc input :
  let t := trace (Execute E uc input) in
  (forall first,
      nth_error (sent t) 0 = Some first ->
      exists response,
        nth_error (received t) 0 = Some response /\
        firstDelta response = Some (ChatCompletionOutputDTO.Content first)) /\
  (forall k r,
      nth_error (sent t) (S k) = Some r ->
      exists previous response delta,
        nth_error (sent t) k = Some previous /\
        nth_error (received t) (S k) = Some response /\
        firstDelta response = Some delta /\
        ChatCompletionOutputDTO.Content r
          = ChatCompletionOutputDTO.Content previous +++ delta).
Proof.
  intros t. subst t.
  destruct (Execute_stream E uc input)
    as [(Hs & _)|(c0 & c & resp & pre & _ & Hs & Hr & _)].
  - rewrite Hs. split; [intros first|intros k r]; cbn; discriminate.
  - rewrite Hs, Hr. split.
    + intros first Hnth.
      destruct (drain_sent_nth _ _ _ _ _ _ Hnth) as (response & d & H1 & H2 & H3).
      exists response. split; [exact H1|]. now rewrite H3.
    + intros k r Hnth.
      destruct (nth_error_pred _ _ _ Hnth) as [previous Hprev].
      destruct (drain_sent_nth _ _ _ _ _ _ Hnth) as (response & d & H1 & H2 & H3).
      exists previous, response, d. repeat split; trivial.
      rewrite H3. cbn [textBefore]. now rewrite Hprev.
Qed.

(** ** The provider request *)

(** The requests of a run are built from the conversation that holds the
    user's turn. *)
Lemma Execute_requested E uc input req :
  In req (requested (trace (Execute E uc input))) ->
  exists chat0 pre userMessage chat,
    Resolved E uc input chat0 pre /\
    NewMessage E "user" (ChatCompletionInputDTO.UserMessage input)
      (ChatConfig.Model (Chat.Config chat0)) = Ok userMessage /\
    AddMessage E chat0 userMessage = Ok chat /\
    req = completionRequest chat.
Proof.
  pose proof (Execute_exits E uc input) as Hexit.
  remember (outcome (Execute E uc input)) as o eqn:Ho.
  remember (trace (Execute E uc input)) as t eqn:Ht.
  clear Ho Ht.
  assert (Hstream : forall c0 c resp pre td,
             Streaming E uc input c0 c resp pre ->
             requested td = [] ->
             In req (requested (pre ++ td)) ->
             exists chat0 pre userMessage chat,
               Resolved E uc input chat0 pre /\
               NewMessage E "user" (ChatCompletionInputDTO.UserMessage input)
                 (ChatConfig.Model (Chat.Config chat0)) = Ok userMessage /\
               AddMessage E chat0 userMessage = Ok chat /\
               req = completionRequest chat).
  { intros c0 c resp pre td Hs Htd. autorewrite with trace. rewrite Htd.
    destruct Hs as [c0' p m c' r Hres Hu Ha Hopen].
    destruct (Resolved_quiet _ _ _ _ _ Hres) as (_ & _ & _ & _ & _ & H6).
    autorewrite with trace. rewrite H6. cbn.
    intros [<-|[]]. exists c0', p, m, c'. auto. }
  assert (Hdrain : forall c e frs full o' td,
             drain c frs e full = (o', td) -> requested td = []).
  { intros c e frs full o' td Hd.
    pose proof (drain_silent c e frs full) as (_ & _ & _ & H).
    unfold trace in H. now rewrite Hd in H. }
  assert (Hdrained : forall c0 c full pre post,
             Drained E uc input c0 c full pre ->
             requested post = [] ->
             In req (requested (pre ++ post)) ->
             exists chat0 pre userMessage chat,
               Resolved E uc input chat0 pre /\
               NewMessage E "user" (ChatCompletionInputDTO.UserMessage input)
                 (ChatConfig.Model (Chat.Config chat0)) = Ok userMessage /\
               AddMessage E chat0 userMessage = Ok chat /\
               req = completionRequest chat).
  { intros c0 c full pre post [c0' c' resp p full' td Hs Hd] Hpost.
    rewrite <- app_assoc. apply (Hstream _ _ _ _ _ Hs).
    autorewrite with trace. now rewrite (Hdrain _ _ _ _ _ _ Hd), Hpost. }
  destruct Hexit as
    [ err Hf Hne | err Hf Hn | c err Hf Hn Hc
    | c0 pre err Hres Hu | c0 pre m err Hres Hu Ha
    | c0 pre m c err Hres Hu Ha Ho
    | c0 c resp pre err td Hs Hd | c0 c resp pre msg td Hs Hd
    | c0 c full pre err Hdr Hm | c0 c full pre m err Hdr Hm Ha
    | c0 c full pre m c' err Hdr Hm Ha Hsv
    | c0 c full pre m c' Hdr Hm Ha Hsv ].
  1-3: cbn; tauto.
  1-3: destruct (Resolved_quiet _ _ _ _ _ Hres) as (_ & _ & _ & _ & _ & H6);
       autorewrite with trace; rewrite H6; cbn.
  1-2: tauto.
  - intros [<-|[]]. exists c0, pre, m, c. auto.
  - apply (Hstream _ _ _ _ _ Hs). eapply Hdrain; eassumption.
  - apply (Hstream _ _ _ _ _ Hs). eapply Hdrain; eassumption.
  - rewrite <- (app_nil_r pre). now apply (Hdrained _ _ _ _ _ Hdr).
  - now apply (Hdrained _ _ _ _ _ Hdr).
  - now apply (Hdrained _ _ _ _ _ Hdr).
  - now apply (Hdrained _ _ _ _ _ Hdr).
Qed.

(** Five of the six sampling parameters of the request are those of the
    conversation; the frequency penalty is the conversation's presence
    penalty. *)
Lemma completionRequest_sampling chat :
  let req := completionRequest chat in
  let cfg := Chat.Config chat in
  ChatCompletionRequest.MaxTokens req = ChatConfig.MaxTokens cfg /\
  ChatCompletionRequest.Temperature req = ChatConfig.Temperature cfg /\
  ChatCompletionRequest.TopP req = ChatConfig.TopP cfg /\
  ChatCompletionRequest.Stop req = ChatConfig.Stop cfg /\
  ChatCompletionRequest.PresencePenalty req = ChatConfig.PresencePenalty cfg /\
  ChatCompletionRequest.FrequencyPenalty req = ChatConfig.PresencePenalty cfg.
Proof. cbn. repeat split. Qed.

(** C3.  For the stored conversation, whose presence penalty is 0.5 and
    whose frequency penalty is 1, the request that [Execute] hands to the
    provider has the frequency penalty 0.5: it is the conversation's
    presence penalty, not its frequency penalty. *)
Theorem C3_frequency_penalty_is_presence_penalty :
  exists req,
    requested (trace (stored_run hello_stream)) = [req] /\
    ChatConfig.PresencePenalty (Chat.Config stored_chat) = f32_half /\
    ChatConfig.FrequencyePenalty (Chat.Config stored_chat) = f32_one /\
    ChatCompletionRequest.PresencePenalty req = f32_half /\
    ChatCompletionRequest.FrequencyPenalty req = f32_half /\
    ChatCompletionRequest.FrequencyPenalty req
      <> ChatConfig.FrequencyePenalty (Chat.Config stored_chat).
Proof.
  eexists. split; [vm_compute; reflexivity|].
  repeat split. cbn. unfold f32_half, f32_one. discriminate.
Qed.

(** The [Stream] field of the literal of lines 91-101 is [false] in every
    request. *)
Lemma Execute_request_stream_field E uc input req :
  In req (requested (trace (Execute E uc input))) ->
  ChatCompletionRequest.Stream req = false.
Proof.
  intros Hin.
  destruct (Execute_requested E uc input req Hin)
    as (c0 & pre & m & c & _ & _ & _ & ->).
  reflexivity.
Qed.

(** ** Failures *)

(** C5.  In every run in which a receive fails with an error that is not
    the clean end of the stream, [Execute] returns an error, [SaveChat] is
    not called, and the only message appended to the conversation is the
    one built for the user's turn; under the laws of the entities no
    appended message has the assistant's role. *)
Theorem C5_receive_error_aborts E uc input cause :
  In (RecvError cause) (ended (trace (Execute E uc input))) ->
  let run := Execute E uc input in
  outcome run = Fail ("error straming response: " +++ cause) /\
  saved (trace run) = [] /\
  (exists chat0 userMessage,
      appended (trace run) = [userMessage] /\
      NewMessage E "user" (ChatCompletionInputDTO.UserMessage input)
        (ChatConfig.Model (Chat.Config chat0)) = Ok userMessage) /\
  (EntityLaws E ->
   Forall (fun m => Message.Role m <> "assistant") (appended (trace run))).
Proof.
  cbn zeta. by_exit E uc input.
  1-3: cbn; tauto.
  1-3: destruct (Resolved_quiet _ _ _ _ _ Hres) as (_ & _ & H3 & _);
       autorewrite with trace; rewrite H3; cbn; tauto.
  3-6: destruct (Drained_stream _ _ _ _ _ _ _ Hdr)
         as (resp & p & td & -> & Hs & _ & _ & Hended & _);
       destruct (Streaming_quiet _ _ _ _ _ _ _ Hs) as (_ & _ & H3 & _);
       autorewrite with trace; rewrite H3, Hended; cbn;
       intros [[=]|[]].
  all: destruct (Streaming_quiet _ _ _ _ _ _ _ Hs)
         as (_ & _ & H3 & Hsv & _ & user & Happ & Huser & _);
       destruct (drain_silent c (ChatCompletionStream.ending resp)
                   (ChatCompletionStream.fragments resp) "")
         as (_ & Hdsv & Hdapp & _);
       unfold trace in Hdsv, Hdapp; rewrite Hd in Hdsv, Hdapp;
       cbn [snd] in Hdsv, Hdapp;
       autorewrite with trace; rewrite H3, Hsv, Happ, Hdsv, Hdapp; cbn [app];
       intros Hin;
       assert (Hin' : In (RecvError cause) (ended (trace (drain c
                         (ChatCompletionStream.fragments resp)
                         (ChatCompletionStream.ending resp) ""))))
         by (unfold trace; now rewrite Hd);
       destruct (drain_ended _ _ _ _ _ Hin') as (He & _ & Hout);
       unfold outcome, drainEnd in Hout; rewrite Hd, <- He in Hout;
       cbn [fst] in Hout; try discriminate.
  injection Hout as ->. repeat split.
  - now exists c0, user.
  - intros laws. constructor; [|constructor].
    destruct (NewMessage_fields E laws _ _ _ _ Huser) as (Hrole & _).
    rewrite Hrole. discriminate.
Qed.

(** C7.  When the lookup fails with an error other than "chat not found",
    [Execute] returns that error behind the words "error fetching existing
    chat: ", and the lookup is the only call it makes: no provider request,
    no [CreateChat], no [SaveChat]. *)
Theorem C7_lookup_error_aborts E uc input err :
  FindChatByID uc (ChatCompletionInputDTO.ChatID input) = Error err ->
  err <> "chat not found" ->
  let run := Execute E uc input in
  outcome run = Fail ("error fetching existing chat: " +++ err) /\
  trace run = [EvFindChatByID (ChatCompletionInputDTO.ChatID input)] /\
  requested (trace run) = [] /\
  created (trace run) = [] /\
  saved (trace run) = [].
Proof.
  intros Hfind Hne run. subst run.
  assert (Hrun : Execute E uc input =
                 (Fail ("error fetching existing chat: " +++ err),
                  [EvFindChatByID (ChatCompletionInputDTO.ChatID input)])).
  { unfold Execute, resolveChat. cbn [bind emit]. rewrite Hfind.
    apply String.eqb_neq in Hne. rewrite Hne. reflexivity. }
  rewrite Hrun. cbn. repeat split.
Qed.

(** ** The conversation sent to the provider *)

(** C8.  Every request that [Execute] hands to the provider is built from
    the conversation as [AddMessage] left it after the user's turn: its
    message list is that conversation's message list translated entry by
    entry, so it has the same length and, at every rank, the role and the
    content of the message at that rank.  Under the laws of the entities
    the last message of that conversation is the user's turn. *)
Theorem C8_request_messages E uc input req :
  In req (requested (trace (Execute E uc input))) ->
  exists chat0 userMessage chat,
    NewMessage E "user" (ChatCompletionInputDTO.UserMessage input)
      (ChatConfig.Model (Chat.Config chat0)) = Ok userMessage /\
    AddMessage E chat0 userMessage = Ok chat /\
    ChatCompletionRequest.Messages req = map toProvider (Chat.Messages chat) /\
    length (ChatCompletionRequest.Messages req)
      = length (Chat.Messages chat) /\
    (forall i msg,
        nth_error (Chat.Messages chat) i = Some msg ->
        exists entry,
          nth_error (ChatCompletionRequest.Messages req) i = Some entry /\
          ChatCompletionMessage.Role entry = Message.Role msg /\
          ChatCompletionMessage.Content entry = Message.Content msg) /\
    (EntityLaws E ->
     Chat.Messages chat = Chat.Messages chat0 ++ [userMessage] /\
     Message.Role userMessage = "user" /\
     Message.Content userMessage = ChatCompletionInputDTO.UserMessage input).
Proof.
  intros Hin.
  destruct (Execute_requested E uc input req Hin)
    as (c0 & pre & m & c & _ & Huser & Hadd & ->).
  exists c0, m, c. cbn [completionRequest ChatCompletionRequest.Messages].
  rewrite providerMessages_map.
  split; [exact Huser|]. split; [exact Hadd|]. split; [reflexivity|].
  split; [apply length_map|]. split.
  - intros i msg Hnth. exists (toProvider msg).
    rewrite nth_error_map, Hnth. now cbn.
  - intros laws.
    destruct (NewMessage_fields E laws _ _ _ _ Huser) as (Hrole & Hcontent).
    destruct (AddMessage_appends E laws _ _ _ Hadd) as (_ & _ & _ & Hmsgs).
    auto.
Qed.

(** ** Resolution of the conversation *)

Lemma Streaming_resolved E uc input chat0 chat resp pre :
  Streaming E uc input chat0 chat resp pre ->
  exists p rest,
    Resolved E uc input chat0 p /\ pre = p ++ rest /\ created rest = [].
Proof.
  intros [c0 p m c r Hres Hu Ha Hopen]. exists p. eexists.
  split; [exact Hres|]. split; reflexivity.
Qed.

Lemma Drained_resolved E uc input chat0 chat fullResponse pre :
  Drained E uc input chat0 chat fullResponse pre ->
  exists p rest,
    Resolved E uc input chat0 p /\ pre = p ++ rest /\ created rest = [].
Proof.
  intros [c0 c resp p0 full td Hs Hd].
  destruct (Streaming_resolved _ _ _ _ _ _ _ Hs) as (p & rest & Hres & -> & Hc).
  exists p, (rest ++ td). split; [exact Hres|].
  split; [now rewrite app_assoc|].
  autorewrite with trace. rewrite Hc.
  pose proof (drain_silent c (ChatCompletionStream.ending resp)
                (ChatCompletionStream.fragments resp) "") as (H & _).
  unfold trace in H. now rewrite Hd in H.
Qed.

(** A run stops while resolving the conversation, or goes on with a
    resolved conversation and never calls [CreateChat] again. *)
Lemma Execute_resolution E uc input :
  let run := Execute E uc input in
  let id := ChatCompletionInputDTO.ChatID input in
  (exists err,
      FindChatByID uc id = Error err /\ err <> "chat not found" /\
      trace run = [EvFindChatByID id]) \/
  (exists err,
      FindChatByID uc id = Error "chat not found" /\
      createNewChat E input = Error err /\
      outcome run = Fail ("error creating new chat: " +++ err) /\
      trace run = [EvFindChatByID id]) \/
  (exists chat err,
      FindChatByID uc id = Error "chat not found" /\
      createNewChat E input = Ok chat /\
      CreateChat uc chat = Some err /\
      outcome run = Fail ("error persisting new chat: " +++ err) /\
      trace run = [EvFindChatByID id; EvCreateChat chat]) \/
  (exists chat0 p rest,
      Resolved E uc input chat0 p /\
      trace run = p ++ rest /\
      created rest = []).
Proof.
  cbn zeta. by_exit E uc input.
  - left. now exists err.
  - right. left. now exists err.
  - right. right. left. now exists c, err.
  - do 3 right. exists c0, pre, []. now rewrite app_nil_r.
  - do 3 right. now exists c0, pre, [EvAddMessage m].
  - do 3 right. exists c0, pre. eexists. now split.
  - do 3 right.
    destruct (Streaming_resolved _ _ _ _ _ _ _ Hs) as (p & rest & Hres & -> & Hc).
    exists c0, p, (rest ++ td). split; [exact Hres|].
    split; [now rewrite app_assoc|]. autorewrite with trace. rewrite Hc.
    pose proof (drain_silent c (ChatCompletionStream.ending resp)
                  (ChatCompletionStream.fragments resp) "") as (H & _).
    unfold trace in H. now rewrite Hd in H.
  - do 3 right.
    destruct (Streaming_resolved _ _ _ _ _ _ _ Hs) as (p & rest & Hres & -> & Hc).
    exists c0, p, (rest ++ td). split; [exact Hres|].
    split; [now rewrite app_assoc|]. autorewrite with trace. rewrite Hc.
    pose proof (drain_silent c (ChatCompletionStream.ending resp)
                  (ChatCompletionStream.fragments resp) "") as (H & _).
    unfold trace in H. now rewrite Hd in H.
  - do 3 right.
    destruct (Drained_resolved _ _ _ _ _ _ _ Hdr) as (p & rest & Hres & -> & Hc).
    exists c0, p, rest. auto.
  - do 3 right.
    destruct (Drained_resolved _ _ _ _ _ _ _ Hdr) as (p & rest & Hres & -> & Hc).
    exists c0, p, (rest ++ [EvAddMessage m]). split; [exact Hres|].
    split; [now rewrite app_assoc|]. autorewrite with trace. now rewrite Hc.
  - do 3 right.
    destruct (Drained_resolved _ _ _ _ _ _ _ Hdr) as (p & rest & Hres & -> & Hc).
    exists c0, p, (rest ++ [EvAddMessage m; EvSaveChat c']).
    split; [exact Hres|].
    split; [now rewrite app_assoc|]. autorewrite with trace. now rewrite Hc.
  - do 3 right.
    destruct (Drained_resolved _ _ _ _ _ _ _ Hdr) as (p & rest & Hres & -> & Hc).
    exists c0, p, (rest ++ [EvAddMessage m; EvSaveChat c']).
    split; [exact Hres|].
    split; [now rewrite app_assoc|]. autorewrite with trace. now rewrite Hc.
Qed.

(** C6, as the code has it.  When the lookup reports "chat not found":
    if building the new conversation fails, [Execute] returns the error
    and never calls [CreateChat]; if it succeeds, [CreateChat] is the
    second call of the run, it is made once, on the conversation built,
    and that conversation holds one message, a system message with the
    text of [InitialSystemMessage].  Every append comes later in the
    run. *)
Theorem C6_new_chat_created_once E uc input :
  EntityLaws E ->
  FindChatByID uc (ChatCompletionInputDTO.ChatID input)
    = Error "chat not found" ->
  let run := Execute E uc input in
  (forall err,
      createNewChat E input = Error err ->
      outcome run = Fail ("error creating new chat: " +++ err) /\
      created (trace run) = []) /\
  (forall chat,
      createNewChat E input = Ok chat ->
      created (trace run) = [chat] /\
      (exists rest,
          trace run = EvFindChatByID (ChatCompletionInputDTO.ChatID input)
                      :: EvCreateChat chat :: rest /\
          created rest = [] /\
          appended (trace run) = appended rest) /\
      exists initialMessage,
        Chat.Messages chat = [initialMessage] /\
        Message.Role initialMessage = "system" /\
        Message.Content initialMessage =
          ChatCompletionConfigInputDTO.InitialSystemMessage
            (ChatCompletionInputDTO.Config input)).
Proof.
  intros laws Hfind run. subst run.
  assert (Hshape :
    (exists err,
        createNewChat E input = Error err /\
        outcome (Execute E uc input)
          = Fail ("error creating new chat: " +++ err) /\
        trace (Execute E uc input)
          = [EvFindChatByID (ChatCompletionInputDTO.ChatID input)]) \/
    (exists chat rest,
        createNewChat E input = Ok chat /\
        trace (Execute E uc input)
          = EvFindChatByID (ChatCompletionInputDTO.ChatID input)
            :: EvCreateChat chat :: rest /\
        created rest = [])).
  { destruct (Execute_resolution E uc input)
      as [(err & Hf & Hne & _)|[(err & _ & Hn & Ho & Ht)
         |[(chat & err & _ & Hn & _ & _ & Ht)
         |(chat0 & p & rest & Hres & Ht & Hc)]]].
    - congruence.
    - left. now exists err.
    - right. now exists chat, [].
    - right. destruct Hres as [chat Hf|chat _ Hn _]; [congruence|].
      exists chat, rest. auto. }
  split.
  - intros err Hn.
    destruct Hshape as [(err' & Hn' & Ho & Ht)|(chat & rest & Hn' & _)];
      [|congruence].
    rewrite Ht. replace err with err' by congruence. now split.
  - intros chat Hn.
    destruct Hshape as [(err' & Hn' & _)|(chat' & rest & Hn' & Ht & Hc)];
      [congruence|].
    replace chat' with chat in * by congruence.
    rewrite Ht. cbn [created appended flat_map app].
    fold (created rest) (appended rest). rewrite Hc.
    split; [reflexivity|]. split; [now exists rest|].
    apply (createNewChat_seed E input chat laws Hn).
Qed.

(** ** Identifiers *)

(** C9.  When [Execute] returns a value, its [ChatID] is the input's
    [ChatID]; its [UserID], and the [ChatID] and [UserID] of every record
    sent, are those of the resolved conversation, which is the one the
    lookup found or, after "chat not found", the one [createNewChat] built
    and [CreateChat] received.  [createNewChat] gives the same result
    whatever the input's [ChatID]. *)
Theorem C9_identifiers E uc input out :
  EntityLaws E ->
  outcome (Execute E uc input) = Return out ->
  let run := Execute E uc input in
  ChatCompletionOutputDTO.ChatID out = ChatCompletionInputDTO.ChatID input /\
  (forall id, createNewChat E (withChatID input id) = createNewChat E input) /\
  exists chat0,
    (FindChatByID uc (ChatCompletionInputDTO.ChatID input) = Ok chat0 \/
     (FindChatByID uc (ChatCompletionInputDTO.ChatID input)
        = Error "chat not found" /\
      createNewChat E input = Ok chat0 /\
      created (trace run) = [chat0])) /\
    ChatCompletionOutputDTO.UserID out = Chat.UserID chat0 /\
    Forall (fun r =>
              ChatCompletionOutputDTO.ChatID r = Chat.ID chat0 /\
              ChatCompletionOutputDTO.UserID r = Chat.UserID chat0)
      (sent (trace run)).
Proof.
  intros laws Hout run. subst run.
  split; [|split; [intros id; apply createNewChat_ChatID|]].
  - revert Hout. by_exit E uc input; try discriminate. now intros [= <-].
  - assert (Hcreated :
      forall chat0 p,
        Resolved E uc input chat0 p ->
        (exists rest, trace (Execute E uc input) = p ++ rest /\
                      created rest = []) ->
        FindChatByID uc (ChatCompletionInputDTO.ChatID input) = Ok chat0 \/
        (FindChatByID uc (ChatCompletionInputDTO.ChatID input)
           = Error "chat not found" /\
         createNewChat E input = Ok chat0 /\
         created (trace (Execute E uc input)) = [chat0])).
    { intros chat0 p Hres (rest & Ht & Hc).
      destruct Hres as [chat Hf|chat Hf Hn _]; [now left|].
      right. rewrite Ht. autorewrite with trace. now rewrite Hc. }
    revert Hout Hcreated. by_exit E uc input; try discriminate.
    intros [= <-] Hcreated.
    destruct (Drained_resolved _ _ _ _ _ _ _ Hdr)
      as (p & rest & Hres & Hpre & Hc).
    destruct (Drained_stream _ _ _ _ _ _ _ Hdr)
      as (resp & p' & td & -> & Hs & Hd & _).
    destruct (Streaming_quiet _ _ _ _ _ _ _ Hs)
      as (Hsent & _ & _ & _ & _ & user & _ & _ & Hadd).
    destruct (AddMessage_appends E laws _ _ _ Hadd) as (Hid & Huid & _).
    destruct (AddMessage_appends E laws _ _ _ Ha) as (_ & Huid' & _).
    exists c0. split; [|split].
    + apply (Hcreated c0 p Hres).
      exists (rest ++ [EvAddMessage m; EvSaveChat c']).
      rewrite Hpre, <- app_assoc. split; [reflexivity|].
      autorewrite with trace. now rewrite Hc.
    + cbn. congruence.
    + autorewrite with trace. rewrite Hsent. cbn [sent flat_map app].
      fold (sent td). rewrite ?app_nil_r.
      pose proof (drain_sent_ids c (ChatCompletionStream.ending resp)
                    (ChatCompletionStream.fragments resp) "") as Hids.
      unfold trace in Hids. rewrite Hd in Hids. cbn [snd] in Hids.
      rewrite <- Hid, <- Huid. exact Hids.
Qed.

(** ** The index expression *)

(** C10.  A run of [Execute] panics exactly when one of the fragments it
    has received has an empty list of choices: [response.Choices[0]] is
    evaluated for every fragment received, without a guard, and is in
    range when, and only when, the fragment has a choice. *)
Theorem C10_unguarded_first_choice E uc input :
  (exists msg, outcome (Execute E uc input) = Panic msg) <->
  (exists response,
      In response (received (trace (Execute E uc input))) /\
      ChatCompletionStreamResponse.Choices response = []).
Proof.
  destruct (Execute_stream E uc input)
    as [(_ & Hr & _ & Hp)|(c0 & c & resp & pre & _ & _ & Hr & _ & Hp)].
  - rewrite Hr. split.
    + intros [msg H]. now apply Hp in H.
    + intros (r & [] & _).
  - rewrite Hr, Hp. apply drain_panics.
Qed.

(** ** Runs that return *)

Lemma drain_returns chat ending fragments fullResponse :
  Forall (fun r => ChatCompletionStreamResponse.Choices r <> []) fragments ->
  outcome (drain chat fragments ending fullResponse)
    = drainEnd ending (fullResponse +++ concatDeltas fragments).
Proof.
  intros Hall. revert fullResponse.
  induction Hall as [|response rest Hr _ IH]; intros fullResponse.
  - rewrite drain_nil. cbn. now rewrite append_empty_r.
  - destruct (ChatCompletionStreamResponse.Choices response)
      as [|choice choices] eqn:Hc; [contradiction|].
    rewrite (drain_step _ _ _ _ _ _ _ Hc). cbn [outcome fst].
    fold (outcome (drain chat rest ending
            (fullResponse +++
             ChatCompletionStreamChoiceDelta.Content
               (ChatCompletionStreamChoice.Delta choice)))).
    rewrite IH. cbn [concatDeltas]. unfold firstDelta.
    now rewrite Hc, append_assoc.
Qed.

Lemma Resolved_run E uc input chat pre :
  Resolved E uc input chat pre ->
  resolveChat E uc input = (Return chat, pre).
Proof.
  intros [c Hf|c Hf Hn Hc]; unfold resolveChat; cbn [bind emit];
    rewrite Hf; cbn.
  - reflexivity.
  - rewrite Hn. cbn. now rewrite Hc.
Qed.

(** When every collaborator answers without error, the stream ends cleanly
    and each of its fragments has a choice, [Execute] returns a value: the
    input's identifier, the user of the conversation saved, and the joined
    deltas. *)
Lemma Execute_returns E uc input chat0 pre userMessage chat resp
    assistant chat' :
  Resolved E uc input chat0 pre ->
  NewMessage E "user" (ChatCompletionInputDTO.UserMessage input)
    (ChatConfig.Model (Chat.Config chat0)) = Ok userMessage ->
  AddMessage E chat0 userMessage = Ok chat ->
  CreateChatCompletionStream uc (completionRequest chat) = Ok resp ->
  ChatCompletionStream.ending resp = EOF ->
  Forall (fun r => ChatCompletionStreamResponse.Choices r <> [])
    (ChatCompletionStream.fragments resp) ->
  NewMessage E "assistant"
    (concatDeltas (ChatCompletionStream.fragments resp))
    (ChatConfig.Model (Chat.Config chat)) = Ok assistant ->
  AddMessage E chat assistant = Ok chat' ->
  SaveChat uc chat' = None ->
  outcome (Execute E uc input)
    = Return {| ChatCompletionOutputDTO.ChatID :=
                  ChatCompletionInputDTO.ChatID input;
                ChatCompletionOutputDTO.UserID := Chat.UserID chat';
                ChatCompletionOutputDTO.Content :=
                  concatDeltas (ChatCompletionStream.fragments resp) |}.
Proof.
  intros Hres Huser Hadd Hopen Hend Hall Hasst Hadd' Hsave.
  pose proof (drain_returns chat (ChatCompletionStream.ending resp)
                (ChatCompletionStream.fragments resp) "" Hall) as Hd.
  rewrite Hend in Hd. cbn in Hd.
  unfold Execute, outcome. rewrite (Resolved_run _ _ _ _ _ Hres).
  cbn [bind]. unfold appendUserMessage. rewrite Huser. cbn [bind emit].
  rewrite Hadd. cbn [bind ret]. unfold openStream. cbn [bind emit].
  rewrite Hopen. cbn [bind ret]. rewrite Hend.
  destruct (drain chat (ChatCompletionStream.fragments resp) EOF "")
    as [o td] eqn:Hdrain.
  unfold outcome in Hd. cbn [fst] in Hd. subst o.
  cbn [bind]. unfold finalize. rewrite Hasst. cbn [bind emit].
  rewrite Hadd'. cbn [bind emit]. rewrite Hsave. reflexivity.
Qed.

(** * The properties on sample runs *)

(** The second record sent, "Hello", is the first, "He", followed by the
    second delta, "llo". *)
Lemma C2_witness :
  nth_error (sent (trace (fresh_run hello_stream))) 1
    = Some {| ChatCompletionOutputDTO.ChatID := "chat-7f3a";
              ChatCompletionOutputDTO.UserID := "user-1";
              ChatCompletionOutputDTO.Content := "Hello" |} /\
  exists previous response delta,
    nth_error (sent (trace (fresh_run hello_stream))) 0 = Some previous /\
    nth_error (received (trace (fresh_run hello_stream))) 1 = Some response /\
    firstDelta response = Some delta /\
    "Hello" = ChatCompletionOutputDTO.Content previous +++ delta.
Proof.
  assert (H : nth_error (sent (trace (fresh_run hello_stream))) 1
              = Some {| ChatCompletionOutputDTO.ChatID := "chat-7f3a";
                        ChatCompletionOutputDTO.UserID := "user-1";
                        ChatCompletionOutputDTO.Content := "Hello" |})
    by reflexivity.
  split; [exact H|].
  exact (proj2 (C2_partial_results_grow (spec_entity "chat-7f3a")
                  (sample_uc (Error "chat not found") (Ok hello_stream))
                  (sample_input 4096)) 0%nat _ H).
Defined.

Lemma C5_witness :
  In (RecvError "unexpected EOF in body")
     (ended (trace (stored_run broken_stream))) /\
  outcome (stored_run broken_stream)
    = Fail "error straming response: unexpected EOF in body" /\
  saved (trace (stored_run broken_stream)) = [].
Proof.
  assert (H : In (RecvError "unexpected EOF in body")
                 (ended (trace (stored_run broken_stream))))
    by (left; reflexivity).
  split; [exact H|].
  pose proof (C5_receive_error_aborts (spec_entity "chat-7f3a")
                (sample_uc (Ok stored_chat) (Ok broken_stream))
                (sample_input 4096) _ H) as (Hout & Hsaved & _).
  split; [exact Hout|exact Hsaved].
Defined.

(** With a model whose context holds no token the lookup reports "chat not
    found" and yet no conversation reaches [CreateChat]. *)
Lemma C6_counterexample :
  EntityLaws (spec_entity "chat-7f3a") /\
  FindChatByID (sample_uc (Error "chat not found") (Ok hello_stream))
    (ChatCompletionInputDTO.ChatID (sample_input 0))
    = Error "chat not found" /\
  outcome starved_run
    = Fail "error creating new chat: error creating initial message: message exceeds the model context window" /\
  ~ (exists chat, created (trace starved_run) = [chat]).
Proof.
  split; [apply spec_entity_laws|].
  split; [reflexivity|]. split; [reflexivity|].
  intros [chat H]. vm_compute in H. discriminate.
Qed.

Lemma C6_witness :
  FindChatByID (sample_uc (Error "chat not found") (Ok hello_stream))
    (ChatCompletionInputDTO.ChatID (sample_input 4096))
    = Error "chat not found" /\
  exists chat,
    createNewChat (spec_entity "chat-7f3a") (sample_input 4096) = Ok chat /\
    created (trace (fresh_run hello_stream)) = [chat] /\
    exists initialMessage,
      Chat.Messages chat = [initialMessage] /\
      Message.Role initialMessage = "system" /\
      Message.Content initialMessage = "You are helpful".
Proof.
  assert (H : FindChatByID
                (sample_uc (Error "chat not found") (Ok hello_stream))
                (ChatCompletionInputDTO.ChatID (sample_input 4096))
              = Error "chat not found") by reflexivity.
  split; [exact H|].
  eexists. split; [reflexivity|].
  pose proof (C6_new_chat_created_once (spec_entity "chat-7f3a")
                (sample_uc (Error "chat not found") (Ok hello_stream))
                (sample_input 4096) (spec_entity_laws "chat-7f3a") H)
    as (_ & Hok).
  destruct (Hok _ eq_refl) as (Hcreated & _ & Hseed).
  split; [exact Hcreated|exact Hseed].
Defined.

Lemma C7_witness :
  FindChatByID (sample_uc (Error "connection refused") (Ok hello_stream))
    (ChatCompletionInputDTO.ChatID (sample_input 4096))
    = Error "connection refused" /\
  "connection refused" <> "chat not found" /\
  outcome unreachable_run
    = Fail "error fetching existing chat: connection refused" /\
  trace unreachable_run = [EvFindChatByID "chat-1"].
Proof.
  assert (H : FindChatByID
                (sample_uc (Error "connection refused") (Ok hello_stream))
                (ChatCompletionInputDTO.ChatID (sample_input 4096))
              = Error "connection refused") by reflexivity.
  assert (Hne : "connection refused" <> "chat not found") by discriminate.
  split; [exact H|]. split; [exact Hne|].
  pose proof (C7_lookup_error_aborts (spec_entity "chat-7f3a")
                (sample_uc (Error "connection refused") (Ok hello_stream))
                (sample_input 4096) _ H Hne) as (Hout & Htrace & _).
  split; [exact Hout|exact Htrace].
Defined.

Lemma C8_witness :
  In (completionRequest stored_chat_hi)
     (requested (trace (stored_run hello_stream))) /\
  exists chat0 userMessage chat,
    AddMessage (spec_entity "chat-7f3a") chat0 userMessage = Ok chat /\
    ChatCompletionRequest.Messages (completionRequest stored_chat_hi)
      = map toProvider (Chat.Messages chat) /\
    length (ChatCompletionRequest.Messages (completionRequest stored_chat_hi))
      = length (Chat.Messages chat).
Proof.
  assert (H : In (completionRequest stored_chat_hi)
                 (requested (trace (stored_run hello_stream))))
    by (left; reflexivity).
  split; [exact H|].
  destruct (C8_request_messages (spec_entity "chat-7f3a")
              (sample_uc (Ok stored_chat) (Ok hello_stream))
              (sample_input 4096) _ H)
    as (chat0 & userMessage & chat & _ & Hadd & Hmap & Hlen & _).
  exists chat0, userMessage, chat.
  split; [exact Hadd|]. split; [exact Hmap|exact Hlen].
Defined.

(** The records of a run that created its conversation carry the new
    identifier "chat-7f3a", not the input's "chat-1"; the value returned
    carries "chat-1". *)
Lemma C9_witness :
  outcome (fresh_run hello_stream)
    = Return {| ChatCompletionOutputDTO.ChatID := "chat-1";
                ChatCompletionOutputDTO.UserID := "user-1";
                ChatCompletionOutputDTO.Content := "Hello!" |} /\
  exists chat0,
    Chat.ID chat0 = "chat-7f3a" /\
    Forall (fun r =>
              ChatCompletionOutputDTO.ChatID r = Chat.ID chat0 /\
              ChatCompletionOutputDTO.UserID r = Chat.UserID chat0)
      (sent (trace (fresh_run hello_stream))).
Proof.
  assert (H : outcome (fresh_run hello_stream)
              = Return {| ChatCompletionOutputDTO.ChatID := "chat-1";
                          ChatCompletionOutputDTO.UserID := "user-1";
                          ChatCompletionOutputDTO.Content := "Hello!" |})
    by reflexivity.
  split; [exact H|].
  destruct (C9_identifiers (spec_entity "chat-7f3a")
              (sample_uc (Error "chat not found") (Ok hello_stream))
              (sample_input 4096) _ (spec_entity_laws "chat-7f3a") H)
    as (_ & _ & chat0 & [Hfound|(_ & Hnew & _)] & _ & Hsent).
  - discriminate Hfound.
  - exists chat0. split; [|exact Hsent].
    injection Hnew as <-. reflexivity.
Defined.

(** A fragment without choices, received second, makes the run panic. *)
Lemma C10_witness :
  In emptyFragment (received (trace (stored_run choiceless_stream))) /\
  exists msg, outcome (stored_run choiceless_stream) = Panic msg.
Proof.
  assert (H : In emptyFragment
                 (received (trace (stored_run choiceless_stream))))
    by (right; left; reflexivity).
  split; [exact H|].
  apply (proj2 (C10_unguarded_first_choice (spec_entity "chat-7f3a")
                  (sample_uc (Ok stored_chat) (Ok choiceless_stream))
                  (sample_input 4096))).
  exists emptyFragment. split; [exact H|reflexivity].
Defined.

(** * Further properties of [Execute] and [createNewChat] *)

(** ** More on the drain loop *)

Lemma looked_app (t1 t2 : list Event) :
  looked (t1 ++ t2) = looked t1 ++ looked t2.
Proof. apply flat_map_app. Qed.

Lemma drain_looked chat ending fragments fullResponse :
  looked (trace (drain chat fragments ending fullResponse)) = [].
Proof.
  revert fullResponse.
  induction fragments as [|response rest IH]; intros fullResponse.
  - now rewrite drain_nil.
  - destruct (ChatCompletionStreamResponse.Choices response)
      as [|choice choices] eqn:Hc.
    + now rewrite (drain_stuck _ _ _ _ _ Hc).
    + rewrite (drain_step _ _ _ _ _ _ _ Hc). apply IH.
Qed.

(** The loop sends one record per fragment received, the fragment that
    makes it panic excepted; short of a panic it receives every fragment
    and sees the stream stop. *)
Lemma drain_counts chat ending fragments fullResponse :
  let d := drain chat fragments ending fullResponse in
  ((exists msg, outcome d = Panic msg) /\
   length (received (trace d)) = S (length (sent (trace d))) /\
   ended (trace d) = []) \/
  ((forall msg, outcome d <> Panic msg) /\
   length (sent (trace d)) = length (received (trace d)) /\
   ended (trace d) = [ending] /\
   received (trace d) = fragments).
Proof.
  cbn zeta. revert fullResponse.
  induction fragments as [|response rest IH]; intros fullResponse.
  - rewrite drain_nil. right. cbn. unfold drainEnd.
    repeat split. intros msg. now destruct ending.
  - destruct (ChatCompletionStreamResponse.Choices response)
      as [|choice choices] eqn:Hc.
    + rewrite (drain_stuck _ _ _ _ _ Hc). left. cbn.
      repeat split. now eexists.
    + rewrite (drain_step _ _ _ _ _ _ _ Hc). observe.
      destruct (IH (fullResponse +++
                    ChatCompletionStreamChoiceDelta.Content
                      (ChatCompletionStreamChoice.Delta choice)))
        as [(Hp & Hlen & Hend)|(Hp & Hlen & Hend & Hrecv)].
      * left. cbn [length]. rewrite Hlen. auto.
      * right. cbn [length]. rewrite Hlen, Hrecv. auto.
Qed.

(** The [k]-th record sent holds the builder's initial text followed by
    the deltas of the first [k+1] fragments received. *)
Lemma drain_sent_closed chat ending fragments fullResponse k r :
  let t := trace (drain chat fragments ending fullResponse) in
  nth_error (sent t) k = Some r ->
  ChatCompletionOutputDTO.Content r
    = fullResponse +++ concatDeltas (firstn (S k) (received t)).
Proof.
  cbn zeta. revert fullResponse k.
  induction fragments as [|response rest IH]; intros fullResponse k.
  - rewrite drain_nil. cbn. now destruct k.
  - destruct (ChatCompletionStreamResponse.Choices response)
      as [|choice choices] eqn:Hc.
    + rewrite (drain_stuck _ _ _ _ _ Hc). cbn. now destruct k.
    + rewrite (drain_step _ _ _ _ _ _ _ Hc). observe.
      cbn [firstn concatDeltas]. unfold firstDelta at 1. rewrite Hc.
      destruct k as [|j]; cbn [nth_error].
      * intros [= <-]. cbn. now rewrite append_empty_r.
      * intros Hnth. rewrite (IH _ _ Hnth). now rewrite append_assoc.
Qed.

Lemma last_cons_default {A} (x d : A) (l : list A) :
  last (x :: l) d = last l x.
Proof.
  revert x d. induction l as [|y l IH]; intros x d; [reflexivity|].
  change (last (x :: y :: l) d) with (last (y :: l) d).
  now rewrite !IH.
Qed.

(** The text the loop leaves with is the content of the last record it
    sent, or the builder's initial text when it sent none. *)
Lemma drain_last chat ending fragments fullResponse text :
  let d := drain chat fragments ending fullResponse in
  outcome d = Return text ->
  text = last (map ChatCompletionOutputDTO.Content (sent (trace d)))
           fullResponse.
Proof.
  cbn zeta. revert fullResponse.
  induction fragments as [|response rest IH]; intros fullResponse.
  - rewrite drain_nil. cbn. unfold drainEnd.
    destruct ending; [|discriminate]. now intros [= <-].
  - destruct (ChatCompletionStreamResponse.Choices response)
      as [|choice choices] eqn:Hc.
    + rewrite (drain_stuck _ _ _ _ _ Hc). discriminate.
    + rewrite (drain_step _ _ _ _ _ _ _ Hc). observe.
      intros Hout. cbn [map]. rewrite last_cons_default.
      cbn [ChatCompletionOutputDTO.Content]. now apply IH.
Qed.

(** ** The shape of a run *)

#[global] Hint Rewrite looked_app : trace.

Lemma drain_quiet chat ending fragments fullResponse o td :
  drain chat fragments ending fullResponse = (o, td) ->
  created td = [] /\ saved td = [] /\ appended td = [] /\
  requested td = [] /\ looked td = [] /\ (length (ended td) <= 1)%nat.
Proof.
  intros Hd.
  pose proof (drain_silent chat ending fragments fullResponse)
    as (H1 & H2 & H3 & H4).
  pose proof (drain_looked chat ending fragments fullResponse) as H5.
  pose proof (drain_counts chat ending fragments fullResponse) as H6.
  cbn zeta in H6. unfold trace in *. rewrite Hd in *. cbn [snd] in *.
  repeat split; trivial.
  destruct H6 as [(_ & _ & ->)|(_ & _ & -> & _)]; cbn; lia.
Qed.

(** Opens the stages recorded in the hypotheses down to the calls made. *)
Ltac open_stages :=
  repeat match goal with
         | H : Drained _ _ _ _ _ _ _ |- _ => destruct H
         | H : Streaming _ _ _ _ _ _ _ |- _ => destruct H
         | H : Resolved _ _ _ _ _ |- _ => destruct H
         end.

(** Brings in what is known of the calls made by the loop. *)
Ltac drain_facts :=
  try match goal with
      | H : drain _ _ _ _ = (_, _) |- _ =>
          let Hq1 := fresh "Hq" in let Hq2 := fresh "Hq" in
          let Hq3 := fresh "Hq" in let Hq4 := fresh "Hq" in
          let Hq5 := fresh "Hq" in let Hq6 := fresh "Hq" in
          pose proof (drain_quiet _ _ _ _ _ _ H)
            as (Hq1 & Hq2 & Hq3 & Hq4 & Hq5 & Hq6);
          autorewrite with trace;
          rewrite ?Hq1, ?Hq2, ?Hq3, ?Hq4, ?Hq5
      end;
  autorewrite with trace.

(** X3.  No call is repeated in a run: the lookup is made once, as the
    first call, with the input's identifier; [CreateChat], the provider
    request and [SaveChat] are each made once at most, [AddMessage] twice
    at most, and the stream is seen to stop once at most. *)
Theorem X3_no_call_repeated E uc input :
  let t := trace (Execute E uc input) in
  hd_error t = Some (EvFindChatByID (ChatCompletionInputDTO.ChatID input)) /\
  looked t = [ChatCompletionInputDTO.ChatID input] /\
  (length (created t) <= 1)%nat /\
  (length (appended t) <= 2)%nat /\
  (length (requested t) <= 1)%nat /\
  (length (ended t) <= 1)%nat /\
  (length (saved t) <= 1)%nat.
Proof.
  cbn zeta. by_exit E uc input; open_stages; drain_facts;
    cbn; rewrite ?length_app; cbn; repeat split; lia.
Qed.

(** ** Existing conversations *)

(** X1.  When the lookup finds the conversation, [CreateChat] is never
    called. *)
Theorem X1_found_chat_not_recreated E uc input found :
  FindChatByID uc (ChatCompletionInputDTO.ChatID input) = Ok found ->
  created (trace (Execute E uc input)) = [].
Proof.
  intros Hfind.
  destruct (Execute_resolution E uc input)
    as [(err & Hf & _)|[(err & Hf & _)|[(chat & err & Hf & _)
       |(chat0 & p & rest & Hres & Ht & Hc)]]]; try congruence.
  rewrite Ht. autorewrite with trace. rewrite Hc.
  destruct Hres; [reflexivity|congruence].
Qed.

(** X2.  When the lookup finds the conversation, the input's [UserID] and
    [Config] play no part: the run is the same for every user and every
    configuration sent along with the same identifier and message. *)
Theorem X2_found_chat_ignores_caller E uc input found userID config :
  FindChatByID uc (ChatCompletionInputDTO.ChatID input) = Ok found ->
  Execute E uc (withCaller input userID config) = Execute E uc input.
Proof.
  intros Hfind. unfold Execute, resolveChat.
  cbn [withCaller ChatCompletionInputDTO.ChatID]. rewrite Hfind.
  reflexivity.
Qed.

(** ** Persistence *)

(** What a run that calls [SaveChat] looks like. *)
Lemma Execute_saved E uc input chat :
  In chat (saved (trace (Execute E uc input))) ->
  exists before,
    trace (Execute E uc input) = before ++ [EvSaveChat chat] /\
    saved before = [] /\
    ended before = [EOF] /\
    match SaveChat uc chat with
    | None => exists out, outcome (Execute E uc input) = Return out
    | Some err =>
        outcome (Execute E uc input) = Fail ("error saving chat: " +++ err)
    end.
Proof.
  by_exit E uc input.
  1-3: cbn; tauto.
  1-3: destruct (Resolved_quiet _ _ _ _ _ Hres) as (_ & _ & _ & _ & H5 & _);
       autorewrite with trace; rewrite H5; cbn; tauto.
  1-2: destruct (Streaming_quiet _ _ _ _ _ _ _ Hs) as (_ & _ & _ & H4 & _);
       destruct (drain_quiet _ _ _ _ _ _ Hd) as (_ & H2 & _);
       autorewrite with trace; rewrite H4, H2; cbn; tauto.
  all: destruct (Drained_stream _ _ _ _ _ _ _ Hdr)
         as (resp & p & td & Hpre & Hs & Hd & _ & Hended & _);
       destruct (Streaming_quiet _ _ _ _ _ _ _ Hs) as (_ & _ & H3 & H4 & _);
       destruct (drain_quiet _ _ _ _ _ _ Hd) as (_ & H2 & _);
       assert (Hsaved : saved pre = [])
         by (rewrite Hpre; autorewrite with trace; now rewrite H4, H2);
       assert (Hend : ended pre = [EOF])
         by (rewrite Hpre; autorewrite with trace; now rewrite H3, Hended);
       autorewrite with trace; rewrite Hsaved; cbn.
  1-2: tauto.
  - intros [<-|[]]. exists (pre ++ [EvAddMessage m]).
    rewrite <- app_assoc. split; [reflexivity|].
    autorewrite with trace. rewrite Hsaved, Hend, Hsv. now cbn.
  - intros [<-|[]]. exists (pre ++ [EvAddMessage m]).
    rewrite <- app_assoc. split; [reflexivity|].
    autorewrite with trace. rewrite Hsaved, Hend, Hsv. cbn.
    repeat split. now eexists.
Qed.

(** A run that returns a value has called [SaveChat]. *)
Lemma Execute_returned_saved E uc input out :
  outcome (Execute E uc input) = Return out ->
  exists chat, saved (trace (Execute E uc input)) = [chat] /\
               SaveChat uc chat = None.
Proof.
  by_exit E uc input; try discriminate. intros _.
  destruct (Drained_stream _ _ _ _ _ _ _ Hdr)
    as (resp & p & td & Hpre & Hs & Hd & _).
  destruct (Streaming_quiet _ _ _ _ _ _ _ Hs) as (_ & _ & _ & H4 & _).
  destruct (drain_quiet _ _ _ _ _ _ Hd) as (_ & H2 & _).
  exists c'. split; [|exact Hsv].
  rewrite Hpre. autorewrite with trace. now rewrite H4, H2.
Qed.

(** X4.  [Execute] returns a value exactly when a call of [SaveChat] has
    succeeded.  A call of [SaveChat], whatever its answer, is the last call
    of the run and comes after the clean end of the stream; when it fails,
    [Execute] returns its error behind "error saving chat: ". *)
Theorem X4_returns_iff_saved E uc input :
  let run := Execute E uc input in
  ((exists out, outcome run = Return out) <->
   (exists chat, In chat (saved (trace run)) /\ SaveChat uc chat = None)) /\
  (forall chat,
      In chat (saved (trace run)) ->
      exists before,
        trace run = before ++ [EvSaveChat chat] /\
        saved before = [] /\
        ended before = [EOF]) /\
  (forall chat err,
      In chat (saved (trace run)) ->
      SaveChat uc chat = Some err ->
      outcome run = Fail ("error saving chat: " +++ err)).
Proof.
  cbn zeta. split; [split|split].
  - intros [out Hout].
    destruct (Execute_returned_saved E uc input out Hout) as (chat & Hs & Hn).
    exists chat. rewrite Hs. split; [now left|exact Hn].
  - intros (chat & Hin & Hnone).
    destruct (Execute_saved E uc input chat Hin) as (before & _ & _ & _ & H).
    now rewrite Hnone in H.
  - intros chat Hin.
    destruct (Execute_saved E uc input chat Hin)
      as (before & Ht & Hs & He & _).
    now exists before.
  - intros chat err Hin Herr.
    destruct (Execute_saved E uc input chat Hin) as (before & _ & _ & _ & H).
    now rewrite Herr in H.
Qed.

(** A run that returns a value went through every stage. *)
Lemma Execute_success E uc input out :
  outcome (Execute E uc input) = Return out ->
  exists chat0 p userMessage chat resp td assistant chat',
    Resolved E uc input chat0 p /\
    NewMessage E "user" (ChatCompletionInputDTO.UserMessage input)
      (ChatConfig.Model (Chat.Config chat0)) = Ok userMessage /\
    AddMessage E chat0 userMessage = Ok chat /\
    CreateChatCompletionStream uc (completionRequest chat) = Ok resp /\
    drain chat (ChatCompletionStream.fragments resp)
      (ChatCompletionStream.ending resp) ""
      = (Return (ChatCompletionOutputDTO.Content out), td) /\
    NewMessage E "assistant" (ChatCompletionOutputDTO.Content out)
      (ChatConfig.Model (Chat.Config chat)) = Ok assistant /\
    AddMessage E chat assistant = Ok chat' /\
    SaveChat uc chat' = None /\
    trace (Execute E uc input)
      = p ++ [EvAddMessage userMessage;
              EvCreateChatCompletionStream (completionRequest chat)]
          ++ td ++ [EvAddMessage assistant; EvSaveChat chat'].
Proof.
  by_exit E uc input; try discriminate. intros [= <-].
  destruct Hdr as [c0 c resp p0 full td Hs Hd].
  destruct Hs as [c0 p userMessage c resp Hres Huser Hadd Hopen].
  exists c0, p, userMessage, c, resp, td, m, c'.
  cbn [ChatCompletionOutputDTO.Content].
  repeat split; trivial. now rewrite <- !app_assoc.
Qed.

(** X5.  When [Execute] returns a value, [SaveChat] has received one
    conversation: the resolved conversation, with the same identifier and
    configuration, followed by two messages, first the user's turn with the
    input's text, then the assistant's turn with the text returned.  Those
    two are the messages appended in the run, in that order. *)
Theorem X5_saved_conversation E uc input out :
  EntityLaws E ->
  outcome (Execute E uc input) = Return out ->
  let t := trace (Execute E uc input) in
  exists chat0 userMessage assistant chat',
    (FindChatByID uc (ChatCompletionInputDTO.ChatID input) = Ok chat0 \/
     (FindChatByID uc (ChatCompletionInputDTO.ChatID input)
        = Error "chat not found" /\
      createNewChat E input = Ok chat0)) /\
    saved t = [chat'] /\
    appended t = [userMessage; assistant] /\
    Chat.Messages chat' = Chat.Messages chat0 ++ [userMessage; assistant] /\
    Chat.ID chat' = Chat.ID chat0 /\
    Chat.Config chat' = Chat.Config chat0 /\
    Message.Role userMessage = "user" /\
    Message.Content userMessage = ChatCompletionInputDTO.UserMessage input /\
    Message.Role assistant = "assistant" /\
    Message.Content assistant = ChatCompletionOutputDTO.Content out.
Proof.
  intros laws Hout. cbn zeta.
  destruct (Execute_success E uc input out Hout)
    as (chat0 & p & user & chat & resp & td & asst & chat' &
        Hres & Hu & Ha & _ & Hd & Hm & Ha' & _ & Ht).
  destruct (NewMessage_fields E laws _ _ _ _ Hu) as (Hurole & Hucontent).
  destruct (NewMessage_fields E laws _ _ _ _ Hm) as (Harole & Hacontent).
  destruct (AddMessage_appends E laws _ _ _ Ha) as (Hid & _ & Hcfg & Hmsgs).
  destruct (AddMessage_appends E laws _ _ _ Ha')
    as (Hid' & _ & Hcfg' & Hmsgs').
  destruct (Resolved_quiet _ _ _ _ _ Hres) as (_ & _ & _ & H4 & H5 & _).
  destruct (drain_quiet _ _ _ _ _ _ Hd) as (_ & Hq2 & Hq3 & _).
  exists chat0, user, asst, chat'. rewrite Ht. autorewrite with trace.
  rewrite H4, H5, Hq2, Hq3. cbn [saved appended flat_map app].
  split; [destruct Hres; auto|].
  repeat split; trivial; try congruence.
  rewrite Hmsgs', Hmsgs, <- app_assoc. reflexivity.
Qed.

(** ** The records sent, in closed form *)

(** X6.  In every run the [k]-th record sent holds the deltas of the first
    [k+1] fragments received, joined in order. *)
Theorem X6_record_is_prefix_of_deltas E uc input k r :
  let t := trace (Execute E uc input) in
  nth_error (sent t) k = Some r ->
  ChatCompletionOutputDTO.Content r
    = concatDeltas (firstn (S k) (received t)).
Proof.
  cbn zeta.
  destruct (Execute_stream E uc input)
    as [(Hs & _)|(c0 & c & resp & pre & _ & Hs & Hr & _)].
  - rewrite Hs. now destruct k.
  - rewrite Hs, Hr. intros Hnth.
    now rewrite (drain_sent_closed _ _ _ _ _ _ Hnth).
Qed.

(** X8.  When [Execute] returns a value, its [Content] is the content of
    the last record sent, and the empty string when no record was sent. *)
Theorem X8_result_is_last_record E uc input out :
  outcome (Execute E uc input) = Return out ->
  ChatCompletionOutputDTO.Content out
    = last (map ChatCompletionOutputDTO.Content
              (sent (trace (Execute E uc input)))) "".
Proof.
  intros Hout.
  destruct (Execute_success E uc input out Hout)
    as (chat0 & p & user & chat & resp & td & asst & chat' &
        Hres & _ & _ & _ & Hd & _ & _ & _ & Ht).
  destruct (Resolved_quiet _ _ _ _ _ Hres) as (H1 & _).
  rewrite Ht. autorewrite with trace. rewrite H1.
  change (sent [EvAddMessage user;
                EvCreateChatCompletionStream (completionRequest chat)])
    with (@nil ChatCompletionOutputDTO.t).
  change (sent [EvAddMessage asst; EvSaveChat chat'])
    with (@nil ChatCompletionOutputDTO.t).
  cbn [app]. rewrite ?app_nil_r.
  pose proof (drain_last chat (ChatCompletionStream.ending resp)
                (ChatCompletionStream.fragments resp) ""
                (ChatCompletionOutputDTO.Content out)) as Hlast.
  cbn zeta in Hlast. unfold outcome, trace in Hlast. rewrite Hd in Hlast.
  now apply Hlast.
Qed.

(** ** Draining *)

Lemma drain_no_panic chat ending fragments fullResponse o td :
  drain chat fragments ending fullResponse = (o, td) ->
  (forall msg, o <> Panic msg) ->
  received td = fragments /\
  length (sent td) = length fragments /\
  ended td = [ending].
Proof.
  intros Hd Hnp.
  pose proof (drain_counts chat ending fragments fullResponse) as H.
  cbn zeta in H. unfold outcome, trace in H. rewrite Hd in H.
  cbn [fst snd] in H.
  destruct H as [([msg Hp] & _)|(_ & Hlen & Hend & Hrecv)].
  - now apply Hnp in Hp.
  - rewrite Hlen, Hrecv. auto.
Qed.

(** X7.  When the provider has answered the request with a stream and the
    run does not panic, every fragment of the stream is received, in
    order, one record is sent for each, and the end of the stream is seen:
    the loop skips nothing and stops for no other reason.  When the run
    panics, the fragment received last has no record, the end of the
    stream is not seen and [SaveChat] is not called. *)
Theorem X7_stream_drained E uc input :
  let run := Execute E uc input in
  (forall request stream,
      In request (requested (trace run)) ->
      CreateChatCompletionStream uc request = Ok stream ->
      (forall msg, outcome run <> Panic msg) ->
      received (trace run) = ChatCompletionStream.fragments stream /\
      length (sent (trace run))
        = length (ChatCompletionStream.fragments stream) /\
      ended (trace run) = [ChatCompletionStream.ending stream]) /\
  ((exists msg, outcome run = Panic msg) ->
   length (received (trace run)) = S (length (sent (trace run))) /\
   ended (trace run) = [] /\
   saved (trace run) = []).
Proof.
  cbn zeta. split.
  - intros request stream. by_exit E uc input.
    1-3: cbn; tauto.
    1-3: destruct (Resolved_quiet _ _ _ _ _ Hres) as (_ & _ & _ & _ & _ & H6);
         autorewrite with trace; rewrite H6; cbn; try tauto.
    { intros [<-|[]] Hok. congruence. }
    2:{ intros _ _ Hnp. now destruct (Hnp msg). }
    { destruct (Streaming_quiet _ _ _ _ _ _ _ Hs) as (H1 & H2 & H3 & _ & H5 & _).
      pose proof (Streaming_open _ _ _ _ _ _ _ Hs) as Hopen.
      destruct (drain_quiet _ _ _ _ _ _ Hd) as (_ & _ & _ & Hq4 & _).
      autorewrite with trace. rewrite H1, H2, H3, H5, Hq4. cbn [app].
      intros [<-|[]] Hok _.
      replace stream with resp by congruence.
      apply (drain_no_panic _ _ _ _ _ _ Hd). discriminate. }
    all: destruct (Drained_stream _ _ _ _ _ _ _ Hdr)
           as (resp & p & td & -> & Hs & Hd & _);
         destruct (Streaming_quiet _ _ _ _ _ _ _ Hs)
           as (H1 & H2 & H3 & _ & H5 & _);
         pose proof (Streaming_open _ _ _ _ _ _ _ Hs) as Hopen;
         destruct (drain_quiet _ _ _ _ _ _ Hd) as (_ & _ & _ & Hq4 & _);
         autorewrite with trace; rewrite H1, H2, H3, H5, Hq4;
         cbn [app sent received ended requested flat_map];
         rewrite ?app_nil_r;
         intros [<-|[]] Hok _;
         replace stream with resp by congruence;
         apply (drain_no_panic _ _ _ _ _ _ Hd); discriminate.
  - intros Hpanic.
    assert (Hsaved : saved (trace (Execute E uc input)) = []).
    { destruct (saved (trace (Execute E uc input))) as [|chat l] eqn:Hsv;
        [reflexivity|].
      assert (Hin : In chat (saved (trace (Execute E uc input))))
        by (rewrite Hsv; now left).
      destruct (Execute_saved E uc input chat Hin) as (_ & _ & _ & _ & H).
      destruct Hpanic as [msg Hp]. rewrite Hp in H.
      destruct (SaveChat uc chat); [discriminate|].
      destruct H as [out H]. discriminate. }
    split; [|split]; [| |exact Hsaved].
    all: destruct (Execute_stream E uc input)
           as [(_ & _ & _ & Hnp)|(c0 & c & resp & pre & _ & Hs & Hr & He & Hp)];
         [destruct Hpanic as [msg Hm]; now apply Hnp in Hm|].
    all: rewrite ?Hs, ?Hr, ?He; apply Hp in Hpanic.
    all: destruct (drain_counts c (ChatCompletionStream.ending resp)
                     (ChatCompletionStream.fragments resp) "")
           as [(_ & Hlen & Hend)|(Hnp & _)];
         [assumption|destruct Hpanic as [msg Hm]; now apply Hnp in Hm].
Qed.

(** ** The request, end to end *)

(** A request of a run is made once, and built from the resolved
    conversation with the user's turn at its end. *)
Lemma Execute_request E uc input req :
  EntityLaws E ->
  In req (requested (trace (Execute E uc input))) ->
  exists chat0 pre userMessage chat,
    Resolved E uc input chat0 pre /\
    req = completionRequest chat /\
    Chat.Config chat = Chat.Config chat0 /\
    Chat.Messages chat = Chat.Messages chat0 ++ [userMessage] /\
    Message.Role userMessage = "user" /\
    Message.Content userMessage = ChatCompletionInputDTO.UserMessage input.
Proof.
  intros laws Hin.
  destruct (Execute_requested E uc input req Hin)
    as (chat0 & pre & user & chat & Hres & Hu & Ha & ->).
  destruct (NewMessage_fields E laws _ _ _ _ Hu) as (Hrole & Hcontent).
  destruct (AddMessage_appends E laws _ _ _ Ha) as (_ & _ & Hcfg & Hmsgs).
  exists chat0, pre, user, chat. auto 10.
Qed.

Lemma Execute_requested_once E uc input req :
  In req (requested (trace (Execute E uc input))) ->
  requested (trace (Execute E uc input)) = [req].
Proof.
  by_exit E uc input; open_stages; drain_facts; cbn;
    try tauto; now intros [<-|[]].
Qed.

(** [createNewChat] copies the input's configuration field by field. *)
Lemma createNewChat_config E input chat :
  EntityLaws E ->
  createNewChat E input = Ok chat ->
  let cfg := ChatCompletionInputDTO.Config input in
  let config := Chat.Config chat in
  ChatConfig.Temperature config = ChatCompletionConfigInputDTO.Temperature cfg /\
  ChatConfig.TopP config = ChatCompletionConfigInputDTO.TopP cfg /\
  ChatConfig.N config = ChatCompletionConfigInputDTO.N cfg /\
  ChatConfig.Stop config = ChatCompletionConfigInputDTO.Stop cfg /\
  ChatConfig.MaxTokens config = ChatCompletionConfigInputDTO.MaxTokens cfg /\
  ChatConfig.PresencePenalty config
    = ChatCompletionConfigInputDTO.PresencePenalty cfg /\
  ChatConfig.FrequencyePenalty config
    = ChatCompletionConfigInputDTO.FrequencyePenalty cfg /\
  ChatConfig.Model config
    = NewModel E (ChatCompletionConfigInputDTO.Model cfg)
        (ChatCompletionConfigInputDTO.ModelMaxToken cfg).
Proof.
  intros laws. unfold createNewChat.
  destruct (NewMessage E "system" _ _) as [m|err] eqn:Hm; [|discriminate].
  destruct (NewChat E _ m _) as [c|err] eqn:Hc; [|discriminate].
  intros [= <-].
  destruct (NewChat_fields E laws _ _ _ _ Hc) as (_ & _ & ->).
  cbn. repeat split.
Qed.

(** X10.  A request of a run is the only one, and it is built from the
    resolved conversation: the model name, the maximum of tokens, the
    temperature, top-p, the stop sequences and the presence penalty are
    those of its configuration, and the messages are its messages in the
    provider's format followed by the user's turn with the input's text. *)
Theorem X10_request_from_resolved_chat E uc input request :
  EntityLaws E ->
  In request (requested (trace (Execute E uc input))) ->
  requested (trace (Execute E uc input)) = [request] /\
  exists chat0,
    (FindChatByID uc (ChatCompletionInputDTO.ChatID input) = Ok chat0 \/
     (FindChatByID uc (ChatCompletionInputDTO.ChatID input)
        = Error "chat not found" /\
      createNewChat E input = Ok chat0)) /\
    ChatCompletionRequest.Model request
      = Model.Name (ChatConfig.Model (Chat.Config chat0)) /\
    ChatCompletionRequest.MaxTokens request
      = ChatConfig.MaxTokens (Chat.Config chat0) /\
    ChatCompletionRequest.Temperature request
      = ChatConfig.Temperature (Chat.Config chat0) /\
    ChatCompletionRequest.TopP request = ChatConfig.TopP (Chat.Config chat0) /\
    ChatCompletionRequest.Stop request = ChatConfig.Stop (Chat.Config chat0) /\
    ChatCompletionRequest.PresencePenalty request
      = ChatConfig.PresencePenalty (Chat.Config chat0) /\
    ChatCompletionRequest.Messages request
      = map toProvider (Chat.Messages chat0)
        ++ [ {| ChatCompletionMessage.Role := "user";
                ChatCompletionMessage.Content :=
                  ChatCompletionInputDTO.UserMessage input |} ].
Proof.
  intros laws Hin. split; [now apply Execute_requested_once|].
  destruct (Execute_request E uc input request laws Hin)
    as (chat0 & pre & user & chat & Hres & -> & Hcfg & Hmsgs & Hrole & Hcontent).
  exists chat0. split; [destruct Hres; auto|].
  cbn [completionRequest ChatCompletionRequest.Model
       ChatCompletionRequest.MaxTokens ChatCompletionRequest.Temperature
       ChatCompletionRequest.TopP ChatCompletionRequest.Stop
       ChatCompletionRequest.PresencePenalty ChatCompletionRequest.Messages].
  rewrite providerMessages_map, Hcfg, Hmsgs, map_app. cbn [map].
  unfold toProvider at 2. rewrite Hrole, Hcontent. repeat split.
Qed.

(** X9.  The request made for a conversation created in the run carries
    the input's configuration and two messages: the system message with
    the input's [InitialSystemMessage] and the user's turn with the
    input's [UserMessage]. *)
Theorem X9_first_request_of_new_chat E uc input request :
  EntityLaws E ->
  FindChatByID uc (ChatCompletionInputDTO.ChatID input)
    = Error "chat not found" ->
  In request (requested (trace (Execute E uc input))) ->
  let cfg := ChatCompletionInputDTO.Config input in
  ChatCompletionRequest.Messages request
    = [ {| ChatCompletionMessage.Role := "system";
           ChatCompletionMessage.Content :=
             ChatCompletionConfigInputDTO.InitialSystemMessage cfg |};
        {| ChatCompletionMessage.Role := "user";
           ChatCompletionMessage.Content :=
             ChatCompletionInputDTO.UserMessage input |} ] /\
  ChatCompletionRequest.Model request
    = Model.Name (NewModel E (ChatCompletionConfigInputDTO.Model cfg)
                    (ChatCompletionConfigInputDTO.ModelMaxToken cfg)) /\
  ChatCompletionRequest.MaxTokens request
    = ChatCompletionConfigInputDTO.MaxTokens cfg /\
  ChatCompletionRequest.Temperature request
    = ChatCompletionConfigInputDTO.Temperature cfg /\
  ChatCompletionRequest.TopP request = ChatCompletionConfigInputDTO.TopP cfg /\
  ChatCompletionRequest.Stop request = ChatCompletionConfigInputDTO.Stop cfg /\
  ChatCompletionRequest.PresencePenalty request
    = ChatCompletionConfigInputDTO.PresencePenalty cfg.
Proof.
  intros laws Hfind Hin. cbn zeta.
  destruct (Execute_request E uc input request laws Hin)
    as (chat0 & pre & user & chat & Hres & -> & Hcfg & Hmsgs & Hrole & Hcontent).
  assert (Hnew : createNewChat E input = Ok chat0)
    by (destruct Hres; [congruence|assumption]).
  destruct (createNewChat_seed E input chat0 laws Hnew)
    as (_ & init & Hinit & Hirole & Hicontent).
  destruct (createNewChat_config E input chat0 laws Hnew)
    as (Ht & Hp & _ & Hstop & Hmax & Hpp & _ & Hmodel).
  cbn [completionRequest ChatCompletionRequest.Model
       ChatCompletionRequest.MaxTokens ChatCompletionRequest.Temperature
       ChatCompletionRequest.TopP ChatCompletionRequest.Stop
       ChatCompletionRequest.PresencePenalty ChatCompletionRequest.Messages].
  rewrite providerMessages_map, Hcfg, Hmsgs, Hinit. cbn [map app].
  unfold toProvider. rewrite Hrole, Hcontent, Hirole, Hicontent.
  rewrite Ht, Hp, Hstop, Hmax, Hpp, Hmodel. repeat split.
Qed.

(** ** Failures before the loop *)

(** X11.  When the lookup reports "chat not found" and the initial system
    message is rejected, the lookup is the only call of the run and the
    error returned carries both prefixes, that of [Execute] and that of
    [createNewChat]. *)
Theorem X11_initial_message_rejected E uc input cause :
  FindChatByID uc (ChatCompletionInputDTO.ChatID input)
    = Error "chat not found" ->
  NewMessage E "system"
    (ChatCompletionConfigInputDTO.InitialSystemMessage
       (ChatCompletionInputDTO.Config input))
    (NewModel E
       (ChatCompletionConfigInputDTO.Model (ChatCompletionInputDTO.Config input))
       (ChatCompletionConfigInputDTO.ModelMaxToken
          (ChatCompletionInputDTO.Config input)))
    = Error cause ->
  Execute E uc input
    = (Fail ("error creating new chat: error creating initial message: "
             +++ cause),
       [EvFindChatByID (ChatCompletionInputDTO.ChatID input)]).
Proof.
  intros Hfind Hmsg. unfold Execute, resolveChat, createNewChat.
  cbn [bind emit]. rewrite Hfind. cbn [String.eqb Ascii.eqb Bool.eqb].
  rewrite Hmsg. reflexivity.
Qed.

(** X12.  When [CreateChat] refuses the new conversation, [Execute] returns
    its error behind "error persisting new chat: " and makes no further
    call: nothing is appended, requested, sent or saved. *)
Theorem X12_create_refused E uc input chat cause :
  FindChatByID uc (ChatCompletionInputDTO.ChatID input)
    = Error "chat not found" ->
  createNewChat E input = Ok chat ->
  CreateChat uc chat = Some cause ->
  Execute E uc input
    = (Fail ("error persisting new chat: " +++ cause),
       [EvFindChatByID (ChatCompletionInputDTO.ChatID input);
        EvCreateChat chat]).
Proof.
  intros Hfind Hnew Hcreate. unfold Execute, resolveChat.
  cbn [bind emit]. rewrite Hfind. cbn [String.eqb Ascii.eqb Bool.eqb].
  rewrite Hnew. cbn [bind emit]. rewrite Hcreate. reflexivity.
Qed.

(** X13.  When the user's message is rejected, or cannot be appended, for
    the resolved conversation, [Execute] returns the error before any call
    to the provider: the run holds the calls that resolved the
    conversation, and the rejected append if any. *)
Theorem X13_user_turn_rejected E uc input chat0 pre :
  Resolved E uc input chat0 pre ->
  (forall cause,
      NewMessage E "user" (ChatCompletionInputDTO.UserMessage input)
        (ChatConfig.Model (Chat.Config chat0)) = Error cause ->
      Execute E uc input
        = (Fail ("error creating user message: " +++ cause), pre)) /\
  (forall userMessage cause,
      NewMessage E "user" (ChatCompletionInputDTO.UserMessage input)
        (ChatConfig.Model (Chat.Config chat0)) = Ok userMessage ->
      AddMessage E chat0 userMessage = Error cause ->
      Execute E uc input
        = (Fail ("error adding new message: " +++ cause),
           pre ++ [EvAddMessage userMessage])).
Proof.
  intros Hres. unfold Execute. rewrite (Resolved_run _ _ _ _ _ Hres).
  cbn [bind]. unfold appendUserMessage. split.
  - intros cause Hmsg. rewrite Hmsg. cbn. now rewrite app_nil_r.
  - intros userMessage cause Hmsg Hadd. rewrite Hmsg. cbn [bind emit].
    rewrite Hadd. reflexivity.
Qed.

(** X14.  When the provider refuses the request, [Execute] returns its
    error behind "error creating chat completion: "; the request is the
    last call of the run, so nothing is received, sent or saved. *)
Theorem X14_provider_refused E uc input chat0 pre userMessage chat cause :
  Resolved E uc input chat0 pre ->
  NewMessage E "user" (ChatCompletionInputDTO.UserMessage input)
    (ChatConfig.Model (Chat.Config chat0)) = Ok userMessage ->
  AddMessage E chat0 userMessage = Ok chat ->
  CreateChatCompletionStream uc (completionRequest chat) = Error cause ->
  Execute E uc input
    = (Fail ("error creating chat completion: " +++ cause),
       pre ++ [EvAddMessage userMessage;
               EvCreateChatCompletionStream (completionRequest chat)]).
Proof.
  intros Hres Hmsg Hadd Hopen. unfold Execute.
  rewrite (Resolved_run _ _ _ _ _ Hres). cbn [bind].
  unfold appendUserMessage. rewrite Hmsg. cbn [bind emit]. rewrite Hadd.
  cbn [bind ret]. unfold openStream. cbn [bind emit]. rewrite Hopen.
  reflexivity.
Qed.

(** * The further properties on sample runs *)

Lemma X1_witness :
  FindChatByID (sample_uc (Ok stored_chat) (Ok hello_stream))
    (ChatCompletionInputDTO.ChatID (sample_input 4096)) = Ok stored_chat /\
  created (trace (stored_run hello_stream)) = [].
Proof.
  assert (H : FindChatByID (sample_uc (Ok stored_chat) (Ok hello_stream))
                (ChatCompletionInputDTO.ChatID (sample_input 4096))
              = Ok stored_chat) by reflexivity.
  split; [exact H|].
  exact (X1_found_chat_not_recreated (spec_entity "chat-7f3a")
           (sample_uc (Ok stored_chat) (Ok hello_stream))
           (sample_input 4096) stored_chat H).
Defined.

Lemma X2_witness :
  FindChatByID (sample_uc (Ok stored_chat) (Ok hello_stream))
    (ChatCompletionInputDTO.ChatID (sample_input 4096)) = Ok stored_chat /\
  Execute (spec_entity "chat-7f3a")
    (sample_uc (Ok stored_chat) (Ok hello_stream))
    (withCaller (sample_input 4096) "user-2" other_config)
  = stored_run hello_stream.
Proof.
  assert (H : FindChatByID (sample_uc (Ok stored_chat) (Ok hello_stream))
                (ChatCompletionInputDTO.ChatID (sample_input 4096))
              = Ok stored_chat) by reflexivity.
  split; [exact H|].
  exact (X2_found_chat_ignores_caller (spec_entity "chat-7f3a")
           (sample_uc (Ok stored_chat) (Ok hello_stream))
           (sample_input 4096) stored_chat "user-2" other_config H).
Defined.

Lemma X4_witness :
  (exists out, outcome (fresh_run hello_stream) = Return out) /\
  exists chat,
    In chat (saved (trace (fresh_run hello_stream))) /\
    SaveChat (sample_uc (Error "chat not found") (Ok hello_stream)) chat
      = None.
Proof.
  assert (H : exists out, outcome (fresh_run hello_stream) = Return out)
    by (eexists; reflexivity).
  split; [exact H|].
  exact (proj1 (proj1 (X4_returns_iff_saved (spec_entity "chat-7f3a")
                         (sample_uc (Error "chat not found") (Ok hello_stream))
                         (sample_input 4096))) H).
Defined.

(** The spec's example: the conversation saved holds the system message,
    the user's "hi" and the assistant's "Hello!". *)
Lemma X5_witness :
  outcome (fresh_run hello_stream)
    = Return {| ChatCompletionOutputDTO.ChatID := "chat-1";
                ChatCompletionOutputDTO.UserID := "user-1";
                ChatCompletionOutputDTO.Content := "Hello!" |} /\
  exists chat0 userMessage assistant chat',
    saved (trace (fresh_run hello_stream)) = [chat'] /\
    Chat.Messages chat' = Chat.Messages chat0 ++ [userMessage; assistant] /\
    Message.Content userMessage = "hi" /\
    Message.Content assistant = "Hello!".
Proof.
  assert (H : outcome (fresh_run hello_stream)
              = Return {| ChatCompletionOutputDTO.ChatID := "chat-1";
                          ChatCompletionOutputDTO.UserID := "user-1";
                          ChatCompletionOutputDTO.Content := "Hello!" |})
    by reflexivity.
  split; [exact H|].
  destruct (X5_saved_conversation (spec_entity "chat-7f3a")
              (sample_uc (Error "chat not found") (Ok hello_stream))
              (sample_input 4096) _ (spec_entity_laws "chat-7f3a") H)
    as (chat0 & user & asst & chat' & _ & Hsaved & _ & Hmsgs & _ & _ & _
        & Hucontent & _ & Hacontent).
  exists chat0, user, asst, chat'.
  split; [exact Hsaved|]. split; [exact Hmsgs|].
  split; [exact Hucontent|exact Hacontent].
Defined.

Lemma X6_witness :
  nth_error (sent (trace (fresh_run hello_stream))) 2
    = Some {| ChatCompletionOutputDTO.ChatID := "chat-7f3a";
              ChatCompletionOutputDTO.UserID := "user-1";
              ChatCompletionOutputDTO.Content := "Hello!" |} /\
  "Hello!"
    = concatDeltas (firstn 3 (received (trace (fresh_run hello_stream)))).
Proof.
  assert (H : nth_error (sent (trace (fresh_run hello_stream))) 2
              = Some {| ChatCompletionOutputDTO.ChatID := "chat-7f3a";
                        ChatCompletionOutputDTO.UserID := "user-1";
                        ChatCompletionOutputDTO.Content := "Hello!" |})
    by reflexivity.
  split; [exact H|].
  exact (X6_record_is_prefix_of_deltas (spec_entity "chat-7f3a")
           (sample_uc (Error "chat not found") (Ok hello_stream))
           (sample_input 4096) 2%nat _ H).
Defined.

(** A stream that breaks after "He": the fragment is received and its
    record sent before the run fails. *)
Lemma X7_witness :
  In (completionRequest stored_chat_hi)
     (requested (trace (stored_run broken_stream))) /\
  (forall msg, outcome (stored_run broken_stream) <> Panic msg) /\
  received (trace (stored_run broken_stream)) = [fragment "He"] /\
  length (sent (trace (stored_run broken_stream))) = 1%nat /\
  ended (trace (stored_run broken_stream))
    = [RecvError "unexpected EOF in body"].
Proof.
  assert (H : In (completionRequest stored_chat_hi)
                 (requested (trace (stored_run broken_stream))))
    by (left; reflexivity).
  assert (Hnp : forall msg, outcome (stored_run broken_stream) <> Panic msg)
    by (intros msg; discriminate).
  split; [exact H|]. split; [exact Hnp|].
  exact (proj1 (X7_stream_drained (spec_entity "chat-7f3a")
                  (sample_uc (Ok stored_chat) (Ok broken_stream))
                  (sample_input 4096))
           _ broken_stream H eq_refl Hnp).
Defined.

Lemma X8_witness :
  outcome (fresh_run hello_stream)
    = Return {| ChatCompletionOutputDTO.ChatID := "chat-1";
                ChatCompletionOutputDTO.UserID := "user-1";
                ChatCompletionOutputDTO.Content := "Hello!" |} /\
  "Hello!"
    = last (map ChatCompletionOutputDTO.Content
              (sent (trace (fresh_run hello_stream)))) "".
Proof.
  assert (H : outcome (fresh_run hello_stream)
              = Return {| ChatCompletionOutputDTO.ChatID := "chat-1";
                          ChatCompletionOutputDTO.UserID := "user-1";
                          ChatCompletionOutputDTO.Content := "Hello!" |})
    by reflexivity.
  split; [exact H|].
  exact (X8_result_is_last_record (spec_entity "chat-7f3a")
           (sample_uc (Error "chat not found") (Ok hello_stream))
           (sample_input 4096) _ H).
Defined.

Lemma X9_witness :
  FindChatByID (sample_uc (Error "chat not found") (Ok hello_stream))
    (ChatCompletionInputDTO.ChatID (sample_input 4096))
    = Error "chat not found" /\
  exists request,
    In request (requested (trace (fresh_run hello_stream))) /\
    ChatCompletionRequest.Messages request
      = [ {| ChatCompletionMessage.Role := "system";
             ChatCompletionMessage.Content := "You are helpful" |};
          {| ChatCompletionMessage.Role := "user";
             ChatCompletionMessage.Content := "hi" |} ] /\
    ChatCompletionRequest.MaxTokens request = 300%Z.
Proof.
  assert (H : FindChatByID
                (sample_uc (Error "chat not found") (Ok hello_stream))
                (ChatCompletionInputDTO.ChatID (sample_input 4096))
              = Error "chat not found") by reflexivity.
  split; [exact H|].
  destruct (requested (trace (fresh_run hello_stream)))
    as [|request others] eqn:Hreq; [discriminate Hreq|].
  assert (Hin : In request (requested (trace (fresh_run hello_stream))))
    by (rewrite Hreq; left; reflexivity).
  exists request. split; [left; reflexivity|].
  destruct (X9_first_request_of_new_chat (spec_entity "chat-7f3a")
              (sample_uc (Error "chat not found") (Ok hello_stream))
              (sample_input 4096) request (spec_entity_laws "chat-7f3a")
              H Hin)
    as (Hmsgs & _ & Hmax & _).
  split; [exact Hmsgs|exact Hmax].
Defined.

Lemma X10_witness :
  In (completionRequest stored_chat_hi)
     (requested (trace (stored_run hello_stream))) /\
  requested (trace (stored_run hello_stream))
    = [completionRequest stored_chat_hi].
Proof.
  assert (H : In (completionRequest stored_chat_hi)
                 (requested (trace (stored_run hello_stream))))
    by (left; reflexivity).
  split; [exact H|].
  exact (proj1 (X10_request_from_resolved_chat (spec_entity "chat-7f3a")
                  (sample_uc (Ok stored_chat) (Ok hello_stream))
                  (sample_input 4096) _ (spec_entity_laws "chat-7f3a") H)).
Defined.

Lemma X11_witness :
  FindChatByID (sample_uc (Error "chat not found") (Ok hello_stream))
    (ChatCompletionInputDTO.ChatID (sample_input 0))
    = Error "chat not found" /\
  starved_run
    = (Fail "error creating new chat: error creating initial message: message exceeds the model context window",
       [EvFindChatByID "chat-1"]).
Proof.
  assert (H : FindChatByID
                (sample_uc (Error "chat not found") (Ok hello_stream))
                (ChatCompletionInputDTO.ChatID (sample_input 0))
              = Error "chat not found") by reflexivity.
  split; [exact H|].
  exact (X11_initial_message_rejected (spec_entity "chat-7f3a")
           (sample_uc (Error "chat not found") (Ok hello_stream))
           (sample_input 0) "message exceeds the model context window"
           H eq_refl).
Defined.

Lemma X12_witness :
  exists chat,
    createNewChat (spec_entity "chat-7f3a") (sample_input 4096) = Ok chat /\
    CreateChat (refusing_uc (Ok hello_stream)) chat = Some "disk full" /\
    Execute (spec_entity "chat-7f3a") (refusing_uc (Ok hello_stream))
      (sample_input 4096)
    = (Fail "error persisting new chat: disk full",
       [EvFindChatByID "chat-1"; EvCreateChat chat]).
Proof.
  eexists. split; [reflexivity|]. split; [reflexivity|].
  exact (X12_create_refused (spec_entity "chat-7f3a")
           (refusing_uc (Ok hello_stream)) (sample_input 4096) _ "disk full"
           eq_refl eq_refl eq_refl).
Defined.

(** "hi" does not fit a context of one token. *)
Lemma X13_witness :
  Resolved (spec_entity "chat-7f3a")
    (sample_uc (Ok tiny_chat) (Ok hello_stream)) (sample_input 4096)
    tiny_chat [EvFindChatByID "chat-1"] /\
  Execute (spec_entity "chat-7f3a")
    (sample_uc (Ok tiny_chat) (Ok hello_stream)) (sample_input 4096)
  = (Fail "error creating user message: message exceeds the model context window",
     [EvFindChatByID "chat-1"]).
Proof.
  assert (H : Resolved (spec_entity "chat-7f3a")
                (sample_uc (Ok tiny_chat) (Ok hello_stream))
                (sample_input 4096) tiny_chat [EvFindChatByID "chat-1"])
    by (apply resolved_found; reflexivity).
  split; [exact H|].
  exact (proj1 (X13_user_turn_rejected (spec_entity "chat-7f3a")
                  (sample_uc (Ok tiny_chat) (Ok hello_stream))
                  (sample_input 4096) tiny_chat _ H)
           "message exceeds the model context window" eq_refl).
Defined.

Lemma X14_witness :
  Resolved (spec_entity "chat-7f3a")
    (sample_uc (Ok stored_chat) (Error "status code: 401"))
    (sample_input 4096) stored_chat [EvFindChatByID "chat-1"] /\
  Execute (spec_entity "chat-7f3a")
    (sample_uc (Ok stored_chat) (Error "status code: 401"))
    (sample_input 4096)
  = (Fail "error creating chat completion: status code: 401",
     [EvFindChatByID "chat-1"] ++
     [EvAddMessage {| Message.Role := "user";
                      Message.Content := "hi";
                      Message.Model := spec_NewModel "gpt-3.5-turbo" 4096 |};
      EvCreateChatCompletionStream (completionRequest stored_chat_hi)]).
Proof.
  assert (H : Resolved (spec_entity "chat-7f3a")
                (sample_uc (Ok stored_chat) (Error "status code: 401"))
                (sample_input 4096) stored_chat [EvFindChatByID "chat-1"])
    by (apply resolved_found; reflexivity).
  split; [exact H|].
  exact (X14_provider_refused (spec_entity "chat-7f3a")
           (sample_uc (Ok stored_chat) (Error "status code: 401"))
           (sample_input 4096) stored_chat _ _ stored_chat_hi
           "status code: 401" H eq_refl eq_refl eq_refl).
Defined.

(** * The assistant's turn and the streaming call *)

(** ** After the loop *)

(** A run that left the loop normally is the calls made so far followed by
    those of lines 126-144, and ends as they end. *)
Lemma Execute_finalize E uc input chat0 chat fullResponse pre :
  Drained E uc input chat0 chat fullResponse pre ->
  Execute E uc input
    = (outcome (finalize E uc input chat fullResponse),
       pre ++ trace (finalize E uc input chat fullResponse)).
Proof.
  intros [c0 c resp p0 full td Hs Hd].
  destruct Hs as [c0 p userMessage c resp Hres Huser Hadd Hopen].
  unfold Execute. rewrite (Resolved_run _ _ _ _ _ Hres). cbn [bind].
  unfold appendUserMessage. rewrite Huser. cbn [bind emit]. rewrite Hadd.
  cbn [bind ret]. unfold openStream. cbn [bind emit]. rewrite Hopen.
  cbn [bind ret]. rewrite Hd. cbn [bind].
  destruct (finalize E uc input c full) as [o post].
  cbn [outcome trace fst snd app]. now rewrite <- !app_assoc.
Qed.

(** C1.  In every run in which the provider's stream ends cleanly, let
    [text] be the deltas of the fragments received, joined in the order of
    receipt; the fragments received are all the fragments of the stream the
    provider returned.  Then [Execute] builds the assistant message from
    [text] for the conversation the request was built from, and what
    follows is fixed by the answers it gets.  If [NewMessage] rejects
    [text], [Execute] returns that error, no assistant message is appended
    and nothing is saved.  Otherwise the message, with the assistant's role
    and the content [text], is appended right after the user's message; if
    [AddMessage] fails nothing is saved; otherwise the conversation with
    the message at its end is handed to [SaveChat], and when [SaveChat]
    succeeds [Execute] returns the value whose [Content] is [text].  So a
    value returned has [text] as its [Content], and comes with an appended
    assistant message and a saved conversation that hold [text]. *)
Theorem C1_clean_stream_content E uc input :
  EntityLaws E ->
  In EOF (ended (trace (Execute E uc input))) ->
  let run := Execute E uc input in
  let text := concatDeltas (received (trace run)) in
  (exists resp before userMessage,
      requested (trace run) = [completionRequest before] /\
      CreateChatCompletionStream uc (completionRequest before) = Ok resp /\
      ChatCompletionStream.ending resp = EOF /\
      received (trace run) = ChatCompletionStream.fragments resp /\
      match NewMessage E "assistant" text
              (ChatConfig.Model (Chat.Config before)) with
      | Error err =>
          outcome run = Fail ("error creating assistant message: " +++ err) /\
          appended (trace run) = [userMessage] /\
          saved (trace run) = []
      | Ok assistant =>
          appended (trace run) = [userMessage; assistant] /\
          Message.Role assistant = "assistant" /\
          Message.Content assistant = text /\
          match AddMessage E before assistant with
          | Error err =>
              outcome run = Fail ("error adding new mesage: " +++ err) /\
              saved (trace run) = []
          | Ok chat =>
              saved (trace run) = [chat] /\
              Chat.Messages chat = Chat.Messages before ++ [assistant] /\
              (exists calls,
                  trace run
                  = calls ++ [EvAddMessage assistant; EvSaveChat chat]) /\
              match SaveChat uc chat with
              | Some err =>
                  outcome run = Fail ("error saving chat: " +++ err)
              | None =>
                  outcome run
                  = Return {| ChatCompletionOutputDTO.ChatID :=
                                ChatCompletionInputDTO.ChatID input;
                              ChatCompletionOutputDTO.UserID :=
                                Chat.UserID chat;
                              ChatCompletionOutputDTO.Content := text |}
              end
          end
      end) /\
  (forall out,
      outcome run = Return out ->
      ChatCompletionOutputDTO.Content out = text /\
      exists before userMessage assistant chat,
        appended (trace run) = [userMessage; assistant] /\
        saved (trace run) = [chat] /\
        AddMessage E before assistant = Ok chat /\
        Chat.Messages chat = Chat.Messages before ++ [assistant] /\
        Message.Role assistant = "assistant" /\
        Message.Content assistant = text) /\
  (forall m,
      In m (appended (trace run)) ->
      Message.Role m = "assistant" -> Message.Content m = text).
Proof.
  intros laws Hclean run text. subst run text.
  destruct (Execute_clean_content E uc input laws Hclean)
    as (_ & Hcontent & Hassistant & _).
  destruct (Execute_clean E uc input Hclean)
    as (c0 & c & full & pre & post & Hdr & _ & Hrecv & _ & _).
  pose proof (Execute_finalize _ _ _ _ _ _ _ Hdr) as Hrun.
  destruct (Drained_stream _ _ _ _ _ _ _ Hdr)
    as (resp & p & td & Hpre & Hs & Hd & Hend & _ & Hrtd & Hfull).
  destruct (Streaming_quiet _ _ _ _ _ _ _ Hs)
    as (_ & Hr & _ & Hsv & Hreq & user & Happ & _ & _).
  pose proof (Streaming_open _ _ _ _ _ _ _ Hs) as Hopen.
  destruct (drain_silent c (ChatCompletionStream.ending resp)
              (ChatCompletionStream.fragments resp) "")
    as (_ & Hdsv & Hdapp & Hdreq).
  unfold trace in Hdsv, Hdapp, Hdreq. rewrite Hd in Hdsv, Hdapp, Hdreq.
  cbn [snd] in Hdsv, Hdapp, Hdreq.
  assert (Hreceived : received (trace (Execute E uc input))
                      = ChatCompletionStream.fragments resp).
  { rewrite Hrecv, Hpre. autorewrite with trace. now rewrite Hr, Hrtd. }
  assert (Htext : concatDeltas (received (trace (Execute E uc input))) = full)
    by now rewrite Hreceived.
  assert (Hpre_app : appended pre = [user])
    by (rewrite Hpre; autorewrite with trace; now rewrite Happ, Hdapp).
  assert (Hpre_sv : saved pre = [])
    by (rewrite Hpre; autorewrite with trace; now rewrite Hsv, Hdsv).
  assert (Hpre_req : requested pre = [completionRequest c])
    by (rewrite Hpre; autorewrite with trace; now rewrite Hreq, Hdreq).
  assert (Hmain :
    match NewMessage E "assistant" full
            (ChatConfig.Model (Chat.Config c)) with
    | Error err =>
        outcome (Execute E uc input)
          = Fail ("error creating assistant message: " +++ err) /\
        requested (trace (Execute E uc input)) = [completionRequest c] /\
        appended (trace (Execute E uc input)) = [user] /\
        saved (trace (Execute E uc input)) = []
    | Ok assistant =>
        requested (trace (Execute E uc input)) = [completionRequest c] /\
        appended (trace (Execute E uc input)) = [user; assistant] /\
        match AddMessage E c assistant with
        | Error err =>
            outcome (Execute E uc input)
              = Fail ("error adding new mesage: " +++ err) /\
            saved (trace (Execute E uc input)) = []
        | Ok chat =>
            saved (trace (Execute E uc input)) = [chat] /\
            trace (Execute E uc input)
              = pre ++ [EvAddMessage assistant; EvSaveChat chat] /\
            match SaveChat uc chat with
            | Some err =>
                outcome (Execute E uc input)
                  = Fail ("error saving chat: " +++ err)
            | None =>
                outcome (Execute E uc input)
                  = Return {| ChatCompletionOutputDTO.ChatID :=
                                ChatCompletionInputDTO.ChatID input;
                              ChatCompletionOutputDTO.UserID :=
                                Chat.UserID chat;
                              ChatCompletionOutputDTO.Content := full |}
            end
        end
    end).
  { rewrite Hrun. unfold finalize, outcome, trace.
    destruct (NewMessage E "assistant" full
                (ChatConfig.Model (Chat.Config c))) as [a|err].
    2:{ cbn [bind emit ret fail fst snd app]. autorewrite with trace.
        rewrite Hpre_req, Hpre_app, Hpre_sv. auto. }
    cbn [bind emit].
    destruct (AddMessage E c a) as [chat|err].
    2:{ cbn [bind emit ret fail fst snd app]. autorewrite with trace.
        rewrite Hpre_req, Hpre_app, Hpre_sv. now cbn. }
    cbn [bind emit].
    destruct (SaveChat uc chat) as [err|];
      cbn [bind emit ret fail fst snd app]; autorewrite with trace;
      rewrite Hpre_req, Hpre_app, Hpre_sv; now cbn. }
  rewrite Htext.
  split; [|split; [|rewrite <- Htext; exact Hassistant]].
  - exists resp, c, user.
    destruct (NewMessage E "assistant" full
                (ChatConfig.Model (Chat.Config c))) as [a|err] eqn:Ha.
    2:{ destruct Hmain as (Ho & Hq & Hap & Hsaved). now rewrite Hq. }
    destruct Hmain as (Hq & Hap & Hrest).
    destruct (NewMessage_fields E laws _ _ _ _ Ha) as (Harole & Hacontent).
    rewrite Hq. repeat split; trivial.
    destruct (AddMessage E c a) as [chat|err] eqn:Hadd; [|exact Hrest].
    destruct Hrest as (Hsaved & Ht & Hsave).
    destruct (AddMessage_appends E laws _ _ _ Hadd) as (_ & _ & _ & Hmsgs).
    repeat split; trivial. now exists pre.
  - intros out Hout. split; [rewrite <- Htext; now apply Hcontent|].
    destruct (NewMessage E "assistant" full
                (ChatConfig.Model (Chat.Config c))) as [a|err] eqn:Ha.
    2:{ destruct Hmain as (Ho & _). congruence. }
    destruct Hmain as (_ & Hap & Hrest).
    destruct (NewMessage_fields E laws _ _ _ _ Ha) as (Harole & Hacontent).
    destruct (AddMessage E c a) as [chat|err] eqn:Hadd.
    2:{ destruct Hrest as (Ho & _). congruence. }
    destruct Hrest as (Hsaved & _ & _).
    destruct (AddMessage_appends E laws _ _ _ Hadd) as (_ & _ & _ & Hmsgs).
    exists c, user, a, chat. auto 10.
Qed.

(** The spec's example: the deltas "He", "llo", "!" give "Hello!", which is
    returned, appended as the assistant's message and saved. *)
Lemma C1_witness :
  In EOF (ended (trace (fresh_run hello_stream))) /\
  forall out,
    outcome (fresh_run hello_stream) = Return out ->
    ChatCompletionOutputDTO.Content out = "Hello!" /\
    exists before userMessage assistant chat,
      appended (trace (fresh_run hello_stream)) = [userMessage; assistant] /\
      saved (trace (fresh_run hello_stream)) = [chat] /\
      AddMessage (spec_entity "chat-7f3a") before assistant = Ok chat /\
      Chat.Messages chat = Chat.Messages before ++ [assistant] /\
      Message.Role assistant = "assistant" /\
      Message.Content assistant = "Hello!".
Proof.
  assert (H : In EOF (ended (trace (fresh_run hello_stream))))
    by (vm_compute; left; reflexivity).
  split; [exact H|].
  exact (proj1 (proj2 (C1_clean_stream_content (spec_entity "chat-7f3a")
                         (sample_uc (Error "chat not found") (Ok hello_stream))
                         (sample_input 4096) (spec_entity_laws "chat-7f3a")
                         H))).
Defined.

(** ** The streaming call *)




